(** * Front.js: session and document orchestration of the document-management client

    A shallow embedding of [src/frontend/Front.js].  The script is a set of
    event handlers over three module variables ([currentUser], [documents],
    [accessToken]), the page's DOM and the browser (local storage, timers,
    [fetch]).  Handlers are modelled as functions on an explicit [State];
    an [async] function is cut at its suspension point: the part before the
    [await] registers a continuation ([Cont]) with the request it sends, and
    [resume] runs the part after it when the browser delivers the outcome.

    Conventions of the model:
    - strings are sequences of code units below 256 (Latin-1), so that
      [length], [trim], [toLowerCase] and [includes] are those of JavaScript
      on that range;
    - a response is delivered together with the outcome of [response.json()]:
      what a handler does between the two awaits neither reads nor writes the
      state (the 401 branch of [apiCall] ends before the second await), so
      the two suspension points are one step;
    - a parsed body is an array of documents or an object ([Json]); bodies
      that parse to [null] or to a number, string or boolean are outside the
      model, and so is an object with a [toString] or [valueOf] member in
      the place of [detail];
    - [console.log]/[console.error] and the cosmetic upload progress bar
      (a [setInterval] driven by [Math.random]) are left out;
    - the markup of the documents grid is not built: the grid is the list
      handed to [renderDocuments]; the two filter drop-downs keep the markup
      assigned to them;
    - the login and signup forms, [loadUserInfo], the health check and the
      page load live in a second layer, [Auth], around this state. *)

From Stdlib Require Import ZArith NArith List String Ascii Bool Lia.
From Stdlib Require Import DecimalString.
Import ListNotations.

Set Warnings "-register-all".

Local Open Scope list_scope.
Local Open Scope string_scope.

(** ** JavaScript strings on the Latin-1 range *)

Module Js.

(** White space and line terminators that [String.prototype.trim] strips:
    TAB, LF, VT, FF, CR, SP and NBSP are the ones below 256. *)
Definition isWhiteSpace (c : ascii) : bool :=
  let n := N_of_ascii c in
  ((9 <=? n) && (n <=? 13) || (n =? 32) || (n =? 160))%N.

Fixpoint trimStart (s : string) : string :=
  match s with
  | EmptyString => EmptyString
  | String c s' => if isWhiteSpace c then trimStart s' else s
  end.

Fixpoint trimEnd (s : string) : string :=
  match s with
  | EmptyString => EmptyString
  | String c s' =>
      match trimEnd s' with
      | EmptyString => if isWhiteSpace c then EmptyString else String c EmptyString
      | t => String c t
      end
  end.

Definition trim (s : string) : string := trimEnd (trimStart s).

(** [toLowerCase] maps A-Z and the accented capitals U+00C0-U+00DE
    (U+00D7, the multiplication sign, apart) to the letter 32 above. *)
Definition lowerChar (c : ascii) : ascii :=
  let n := N_of_ascii c in
  if ((65 <=? n) && (n <=? 90)
      || (192 <=? n) && (n <=? 222) && negb (n =? 215))%N
  then ascii_of_N (n + 32) else c.

Fixpoint toLowerCase (s : string) : string :=
  match s with
  | EmptyString => EmptyString
  | String c s' => String (lowerChar c) (toLowerCase s')
  end.

(** [s.includes(sub)]: [sub] occurs in [s] at some position. *)
Fixpoint includes (s sub : string) : bool :=
  String.prefix sub s
  || match s with
     | EmptyString => false
     | String _ s' => includes s' sub
     end.

(** A string is falsy exactly when it is empty. *)
Definition truthy (s : string) : bool :=
  match s with EmptyString => false | _ => true end.

(** [`${n}`] for a non-negative integer. *)
Definition decimal (n : N) : string := NilEmpty.string_of_uint (N.to_uint n).

(** [`${o}`] in a template literal: [null] prints as the word null. *)
Definition template (o : option string) : string :=
  match o with Some s => s | None => "null" end.

(** [xs.includes(x)] on an array of strings. *)
Definition mem (x : string) (xs : list string) : bool :=
  existsb (String.eqb x) xs.

(** [[...new Set(xs)]]: distinct elements in order of first occurrence. *)
Fixpoint distinct (seen xs : list string) : list string :=
  match xs with
  | [] => []
  | x :: xs' => if mem x seen then distinct seen xs'
                else x :: distinct (x :: seen) xs'
  end.

End Js.

(** ** Data model *)

Record UserProfile := { username : string; role : string }.

(** A document as the backend serialises it.  [upload_date] is the time value
    of [new Date(doc.upload_date)] in milliseconds since the epoch, [None]
    when the string does not parse (an Invalid Date). *)
Record Document := {
  docid : string;
  filename : string;
  category : string;
  author : option string;
  upload_date : option Z;
  summary : option string;
  content_preview : option string
}.

(** A JSON value as the script meets it in the [detail] member of a parsed
    body: FastAPI sends a string there, or an array of objects for a
    validation error.  A number is an integer that a double holds exactly
    (below 2^53 in magnitude); of an object only its being one is kept, and
    it has no member named [toString] or [valueOf]. *)
Inductive JsValue :=
| JsNull
| JsBool (b : bool)
| JsNumber (n : Z)
| JsString (s : string)
| JsArray (items : list JsValue)
| JsObject.

(** Whether a value is truthy: [null], [false], [0] and the empty string are
    not, every array and object is. *)
Definition ToBoolean (v : JsValue) : bool :=
  match v with
  | JsNull => false
  | JsBool b => b
  | JsNumber n => negb (n =? 0)%Z
  | JsString s => Js.truthy s
  | JsArray _ => true
  | JsObject => true
  end.

(** [xs.join(sep)] on strings. *)
Fixpoint join (sep : string) (xs : list string) : string :=
  match xs with
  | [] => ""
  | [x] => x
  | x :: rest => x ++ sep ++ join sep rest
  end.

(** [String(v)], as [new Error(v)], [alert(v)] and a template literal
    compute it: an array prints its elements separated by commas, [null]
    among them as nothing, and an object prints as [[object Object]]. *)
Fixpoint ToString (v : JsValue) : string :=
  match v with
  | JsNull => "null"
  | JsBool true => "true"
  | JsBool false => "false"
  | JsNumber Z0 => "0"
  | JsNumber (Zpos n) => Js.decimal (Npos n)
  | JsNumber (Zneg n) => "-" ++ Js.decimal (Npos n)
  | JsString s => s
  | JsArray items =>
      join "," (map (fun item => match item with
                                 | JsNull => ""
                                 | _ => ToString item
                                 end) items)
  | JsObject => "[object Object]"
  end.

(** [String(member || fallback)] for a member that may be missing: the
    member when it is there and truthy, the fallback otherwise. *)
Definition stringOr (member : option JsValue) (fallback : string) : string :=
  match member with
  | Some v => if ToBoolean v then ToString v else fallback
  | None => fallback
  end.

(** What [response.json()] resolves to: an array of documents, or an object,
    of which the [detail] member is kept ([None] when it has none).  A
    single document, a token or an upload receipt is such an object. *)
Inductive Json :=
| JObject (detail : option JsValue)
| JArray (docs : list Document).

(** The [detail] member of a parsed body; arrays have none. *)
Definition detailOf (j : Json) : option JsValue :=
  match j with JObject d => d | JArray _ => None end.

(** An exception raised by the browser rather than by this script: the
    rejection of [fetch], the SyntaxError of [response.json()]. *)
Record HostError := { host_message : string }.

Inductive Exn :=
| Error (message : string)   (* [new Error(message)] *)
| Host (e : HostError).

Definition messageOf (x : Exn) : string :=
  match x with Error m => m | Host e => host_message e end.

(** The fields of a [Response] that the script reads. *)
Record Response := {
  ok : bool;
  status : N;
  json : HostError + Json   (* [inl e]: [response.json()] rejects with [e] *)
}.

(** Outcome of [await fetch(...)]. *)
Inductive FetchResult :=
| Rejected (e : HostError)
| Responded (r : Response).

Record File := { name : string; type : string }.

Inductive Endpoint :=
| DocumentsEndpoint                     (* /documents/ *)
| DocumentEndpoint (docId : string)     (* /documents/${docId} *)
| DownloadEndpoint (docId : string)     (* /documents/${docId}/download *)
| SearchEndpoint (query : string).      (* /search/?query=${encodeURIComponent(query)} *)

Inductive Method := GET | POST.

Record Request := {
  endpoint : Endpoint;
  method : Method;
  contentType : option string;
  authorization : option string;
  formFile : option File     (* the [file] part of a multipart body *)
}.

(** Observable actions, in the order they happen. *)
Inductive Effect :=
| Sent (id : nat) (r : Request)     (* [fetch(url, config)] *)
| Alert (msg : string)              (* [alert(msg)] *)
| Saved (fileName : string).        (* click on an anchor with [download] set *)

(** The rest of an [async] function after its [await]. *)
Inductive Cont :=
| KLoadDocuments
| KSearch
| KDetail
| KDownload (docId : string)
| KUpload (file : File) (rest : list File).

Inductive Page := LoginPage | SignupPage | DashboardPage.

(** The module variables, the parts of the page the handlers read and
    write, and the browser.  [categoryOptions] and [authorOptions] are the
    markup last assigned to the [innerHTML] of the two drop-downs.
    [timeZone t] is the offset of local time from UTC at instant [t];
    [selectValue markup] is the value a drop-down has once [markup] has been
    parsed into it as its options: that of the option the markup selects,
    the first one when it selects none. *)
Record State := mkState {
  currentUser : option UserProfile;
  documents : Json;
  accessToken : option string;
  searchTimeout : option nat;
  localStorage : option string;
  page : Page;
  grid : list Document;
  categoryOptions : string;
  authorOptions : string;
  categoryFilter : string;
  authorFilter : string;
  dateFilter : string;
  searchInput : string;
  fileInput : list File;
  modal : option Json;
  now : Z;
  timeZone : Z -> Z;
  selectValue : string -> string;
  timers : list (nat * Z);
  nextTimer : nat;
  inflight : list (nat * Cont);
  nextRequest : nat;
  log : list Effect
}.

Definition set_currentUser (v : option UserProfile) (s : State) : State :=
  mkState v (documents s) (accessToken s) (searchTimeout s) (localStorage s)
    (page s) (grid s) (categoryOptions s) (authorOptions s) (categoryFilter s)
    (authorFilter s) (dateFilter s) (searchInput s) (fileInput s) (modal s)
    (now s) (timeZone s) (selectValue s) (timers s) (nextTimer s) (inflight s)
    (nextRequest s) (log s).

Definition set_documents (v : Json) (s : State) : State :=
  mkState (currentUser s) v (accessToken s) (searchTimeout s) (localStorage s)
    (page s) (grid s) (categoryOptions s) (authorOptions s) (categoryFilter s)
    (authorFilter s) (dateFilter s) (searchInput s) (fileInput s) (modal s)
    (now s) (timeZone s) (selectValue s) (timers s) (nextTimer s) (inflight s)
    (nextRequest s) (log s).

Definition set_accessToken (v : option string) (s : State) : State :=
  mkState (currentUser s) (documents s) v (searchTimeout s) (localStorage s)
    (page s) (grid s) (categoryOptions s) (authorOptions s) (categoryFilter s)
    (authorFilter s) (dateFilter s) (searchInput s) (fileInput s) (modal s)
    (now s) (timeZone s) (selectValue s) (timers s) (nextTimer s) (inflight s)
    (nextRequest s) (log s).

Definition set_searchTimeout (v : option nat) (s : State) : State :=
  mkState (currentUser s) (documents s) (accessToken s) v (localStorage s)
    (page s) (grid s) (categoryOptions s) (authorOptions s) (categoryFilter s)
    (authorFilter s) (dateFilter s) (searchInput s) (fileInput s) (modal s)
    (now s) (timeZone s) (selectValue s) (timers s) (nextTimer s) (inflight s)
    (nextRequest s) (log s).

Definition set_localStorage (v : option string) (s : State) : State :=
  mkState (currentUser s) (documents s) (accessToken s) (searchTimeout s) v
    (page s) (grid s) (categoryOptions s) (authorOptions s) (categoryFilter s)
    (authorFilter s) (dateFilter s) (searchInput s) (fileInput s) (modal s)
    (now s) (timeZone s) (selectValue s) (timers s) (nextTimer s) (inflight s)
    (nextRequest s) (log s).

Definition set_page (v : Page) (s : State) : State :=
  mkState (currentUser s) (documents s) (accessToken s) (searchTimeout s)
    (localStorage s) v (grid s) (categoryOptions s) (authorOptions s)
    (categoryFilter s) (authorFilter s) (dateFilter s) (searchInput s)
    (fileInput s) (modal s) (now s) (timeZone s) (selectValue s) (timers s)
    (nextTimer s) (inflight s) (nextRequest s) (log s).

Definition set_grid (v : list Document) (s : State) : State :=
  mkState (currentUser s) (documents s) (accessToken s) (searchTimeout s)
    (localStorage s) (page s) v (categoryOptions s) (authorOptions s)
    (categoryFilter s) (authorFilter s) (dateFilter s) (searchInput s)
    (fileInput s) (modal s) (now s) (timeZone s) (selectValue s) (timers s)
    (nextTimer s) (inflight s) (nextRequest s) (log s).

Definition set_categoryOptions (v : string) (s : State) : State :=
  mkState (currentUser s) (documents s) (accessToken s) (searchTimeout s)
    (localStorage s) (page s) (grid s) v (authorOptions s) (categoryFilter s)
    (authorFilter s) (dateFilter s) (searchInput s) (fileInput s) (modal s)
    (now s) (timeZone s) (selectValue s) (timers s) (nextTimer s) (inflight s)
    (nextRequest s) (log s).

Definition set_authorOptions (v : string) (s : State) : State :=
  mkState (currentUser s) (documents s) (accessToken s) (searchTimeout s)
    (localStorage s) (page s) (grid s) (categoryOptions s) v (categoryFilter
    s) (authorFilter s) (dateFilter s) (searchInput s) (fileInput s) (modal s)
    (now s) (timeZone s) (selectValue s) (timers s) (nextTimer s) (inflight s)
    (nextRequest s) (log s).

Definition set_categoryFilter (v : string) (s : State) : State :=
  mkState (currentUser s) (documents s) (accessToken s) (searchTimeout s)
    (localStorage s) (page s) (grid s) (categoryOptions s) (authorOptions s) v
    (authorFilter s) (dateFilter s) (searchInput s) (fileInput s) (modal s)
    (now s) (timeZone s) (selectValue s) (timers s) (nextTimer s) (inflight s)
    (nextRequest s) (log s).

Definition set_authorFilter (v : string) (s : State) : State :=
  mkState (currentUser s) (documents s) (accessToken s) (searchTimeout s)
    (localStorage s) (page s) (grid s) (categoryOptions s) (authorOptions s)
    (categoryFilter s) v (dateFilter s) (searchInput s) (fileInput s) (modal
    s) (now s) (timeZone s) (selectValue s) (timers s) (nextTimer s) (inflight
    s) (nextRequest s) (log s).

Definition set_dateFilter (v : string) (s : State) : State :=
  mkState (currentUser s) (documents s) (accessToken s) (searchTimeout s)
    (localStorage s) (page s) (grid s) (categoryOptions s) (authorOptions s)
    (categoryFilter s) (authorFilter s) v (searchInput s) (fileInput s) (modal
    s) (now s) (timeZone s) (selectValue s) (timers s) (nextTimer s) (inflight
    s) (nextRequest s) (log s).

Definition set_searchInput (v : string) (s : State) : State :=
  mkState (currentUser s) (documents s) (accessToken s) (searchTimeout s)
    (localStorage s) (page s) (grid s) (categoryOptions s) (authorOptions s)
    (categoryFilter s) (authorFilter s) (dateFilter s) v (fileInput s) (modal
    s) (now s) (timeZone s) (selectValue s) (timers s) (nextTimer s) (inflight
    s) (nextRequest s) (log s).

Definition set_fileInput (v : list File) (s : State) : State :=
  mkState (currentUser s) (documents s) (accessToken s) (searchTimeout s)
    (localStorage s) (page s) (grid s) (categoryOptions s) (authorOptions s)
    (categoryFilter s) (authorFilter s) (dateFilter s) (searchInput s) v
    (modal s) (now s) (timeZone s) (selectValue s) (timers s) (nextTimer s)
    (inflight s) (nextRequest s) (log s).

Definition set_modal (v : option Json) (s : State) : State :=
  mkState (currentUser s) (documents s) (accessToken s) (searchTimeout s)
    (localStorage s) (page s) (grid s) (categoryOptions s) (authorOptions s)
    (categoryFilter s) (authorFilter s) (dateFilter s) (searchInput s)
    (fileInput s) v (now s) (timeZone s) (selectValue s) (timers s) (nextTimer
    s) (inflight s) (nextRequest s) (log s).

Definition set_now (v : Z) (s : State) : State :=
  mkState (currentUser s) (documents s) (accessToken s) (searchTimeout s)
    (localStorage s) (page s) (grid s) (categoryOptions s) (authorOptions s)
    (categoryFilter s) (authorFilter s) (dateFilter s) (searchInput s)
    (fileInput s) (modal s) v (timeZone s) (selectValue s) (timers s)
    (nextTimer s) (inflight s) (nextRequest s) (log s).

Definition set_timeZone (v : Z -> Z) (s : State) : State :=
  mkState (currentUser s) (documents s) (accessToken s) (searchTimeout s)
    (localStorage s) (page s) (grid s) (categoryOptions s) (authorOptions s)
    (categoryFilter s) (authorFilter s) (dateFilter s) (searchInput s)
    (fileInput s) (modal s) (now s) v (selectValue s) (timers s) (nextTimer s)
    (inflight s) (nextRequest s) (log s).

Definition set_selectValue (v : string -> string) (s : State) : State :=
  mkState (currentUser s) (documents s) (accessToken s) (searchTimeout s)
    (localStorage s) (page s) (grid s) (categoryOptions s) (authorOptions s)
    (categoryFilter s) (authorFilter s) (dateFilter s) (searchInput s)
    (fileInput s) (modal s) (now s) (timeZone s) v (timers s) (nextTimer s)
    (inflight s) (nextRequest s) (log s).

Definition set_timers (v : list (nat * Z)) (s : State) : State :=
  mkState (currentUser s) (documents s) (accessToken s) (searchTimeout s)
    (localStorage s) (page s) (grid s) (categoryOptions s) (authorOptions s)
    (categoryFilter s) (authorFilter s) (dateFilter s) (searchInput s)
    (fileInput s) (modal s) (now s) (timeZone s) (selectValue s) v (nextTimer
    s) (inflight s) (nextRequest s) (log s).

Definition set_nextTimer (v : nat) (s : State) : State :=
  mkState (currentUser s) (documents s) (accessToken s) (searchTimeout s)
    (localStorage s) (page s) (grid s) (categoryOptions s) (authorOptions s)
    (categoryFilter s) (authorFilter s) (dateFilter s) (searchInput s)
    (fileInput s) (modal s) (now s) (timeZone s) (selectValue s) (timers s) v
    (inflight s) (nextRequest s) (log s).

Definition set_inflight (v : list (nat * Cont)) (s : State) : State :=
  mkState (currentUser s) (documents s) (accessToken s) (searchTimeout s)
    (localStorage s) (page s) (grid s) (categoryOptions s) (authorOptions s)
    (categoryFilter s) (authorFilter s) (dateFilter s) (searchInput s)
    (fileInput s) (modal s) (now s) (timeZone s) (selectValue s) (timers s)
    (nextTimer s) v (nextRequest s) (log s).

Definition set_nextRequest (v : nat) (s : State) : State :=
  mkState (currentUser s) (documents s) (accessToken s) (searchTimeout s)
    (localStorage s) (page s) (grid s) (categoryOptions s) (authorOptions s)
    (categoryFilter s) (authorFilter s) (dateFilter s) (searchInput s)
    (fileInput s) (modal s) (now s) (timeZone s) (selectValue s) (timers s)
    (nextTimer s) (inflight s) v (log s).

Definition set_log (v : list Effect) (s : State) : State :=
  mkState (currentUser s) (documents s) (accessToken s) (searchTimeout s)
    (localStorage s) (page s) (grid s) (categoryOptions s) (authorOptions s)
    (categoryFilter s) (authorFilter s) (dateFilter s) (searchInput s)
    (fileInput s) (modal s) (now s) (timeZone s) (selectValue s) (timers s)
    (nextTimer s) (inflight s) (nextRequest s) v.

(** ** Browser primitives *)

Definition alert (msg : string) (s : State) : State :=
  set_log (log s ++ [Alert msg])%list s.

Definition effect (e : Effect) (s : State) : State :=
  set_log (log s ++ [e])%list s.

(** [fetch(url, config)]: the request leaves, and the caller's continuation
    waits under a fresh identifier. *)
Definition fetch (r : Request) (k : Cont) (s : State) : State :=
  let id := nextRequest s in
  set_nextRequest (S id)
    (set_inflight (inflight s ++ [(id, k)])%list
       (set_log (log s ++ [Sent id r])%list s)).

Fixpoint pending (id : nat) (l : list (nat * Cont)) : option Cont :=
  match l with
  | [] => None
  | (i, k) :: l' => if Nat.eqb i id then Some k else pending id l'
  end.

Definition forget (id : nat) (l : list (nat * Cont)) : list (nat * Cont) :=
  filter (fun p => negb (Nat.eqb (fst p) id)) l.

(** [setTimeout(callback, delay)]: every timer of this model runs the search
    callback, so a timer is its identifier and the instant it is due. *)
Definition setTimeout (delay : Z) (s : State) : nat * State :=
  let id := nextTimer s in
  (id, set_nextTimer (S id) (set_timers (timers s ++ [(id, (now s + delay)%Z)])%list s)).

(** [clearTimeout(id)]; [clearTimeout(undefined)] does nothing. *)
Definition clearTimeout (id : option nat) (s : State) : State :=
  match id with
  | None => s
  | Some i => set_timers (filter (fun p => negb (Nat.eqb (fst p) i)) (timers s)) s
  end.

(** ** Views *)

Definition showLogin (s : State) : State := set_page LoginPage s.

(** [renderDocuments(docs)]: [None] is the TypeError of [docs.map] when
    [docs] is not an array; nothing has been written to the grid then. *)
Definition renderDocuments (docs : Json) (s : State) : option State :=
  match docs with
  | JArray l => Some (set_grid l s)
  | JObject _ => None
  end.

Definition quote : string := String (ascii_of_nat 34) EmptyString.

(** [`<option value="${value}">${label}</option>`]: both strings go into
    the markup as they are. *)
Definition optionMarkup (value label : string) : string :=
  "<option value=" ++ quote ++ value ++ quote ++ ">" ++ label ++ "</option>".

(** [[...new Set(documents.map(doc => doc.category))]]. *)
Definition categoriesOf (docs : list Document) : list string :=
  Js.distinct [] (map category docs).

(** [[...new Set(documents.map(doc => doc.author).filter(Boolean))]]. *)
Definition authorsOf (docs : list Document) : list string :=
  Js.distinct []
    (flat_map (fun d => match author d with
                        | Some a => if Js.truthy a then [a] else []
                        | None => []
                        end) docs).

Definition categoryMarkup (docs : list Document) : string :=
  optionMarkup "" "All Categories"
  ++ join "" (map (fun cat => optionMarkup (Js.toLowerCase cat) cat)
                (categoriesOf docs)).

Definition authorMarkup (docs : list Document) : string :=
  optionMarkup "" "All Authors"
  ++ join "" (map (fun author => optionMarkup author author) (authorsOf docs)).

(** [select.innerHTML = markup]: the options are replaced, and with them the
    value of the drop-down. *)
Definition setCategoryOptions (markup : string) (s : State) : State :=
  set_categoryFilter (selectValue s markup) (set_categoryOptions markup s).

Definition setAuthorOptions (markup : string) (s : State) : State :=
  set_authorFilter (selectValue s markup) (set_authorOptions markup s).

(** [updateFilters()]: the markup of both drop-downs is rebuilt from
    [documents]. *)
Definition updateFilters (s : State) : option State :=
  match documents s with
  | JObject _ => None
  | JArray l =>
      Some (setAuthorOptions (authorMarkup l)
              (setCategoryOptions (categoryMarkup l) s))
  end.

(** ** Session *)

Definition logout (s : State) : State :=
  showLogin
    (set_documents (JArray [])
       (set_localStorage None
          (set_accessToken None
             (set_currentUser None s)))).

(** ** API helper *)

(** Every request goes to this origin; an [Endpoint] is the path after it. *)
Definition API_BASE_URL : string := "http://localhost:8000".

(** [apiCall(endpoint, options)] up to [await fetch(url, config)]: the JSON
    content type always, the bearer token when [accessToken] is truthy. *)
Definition apiCall (e : Endpoint) (m : Method) (k : Cont) (s : State) : State :=
  fetch {| endpoint := e;
           method := m;
           contentType := Some "application/json";
           authorization :=
             match accessToken s with
             | Some t => if Js.truthy t then Some ("Bearer " ++ t) else None
             | None => None
             end;
           formFile := None |} k s.

(** What [await apiCall(...)] gives its caller. *)
Inductive Outcome :=
| Resolved (r : Response)
| Threw (x : Exn).

(** [apiCall] from the resolution of [fetch] on.  The [catch] block logs and
    rethrows, so what the [try] block throws is what the caller sees. *)
Definition apiCall_settle (fr : FetchResult) (s : State) : State * Outcome :=
  match fr with
  | Rejected e => (s, Threw (Host e))
  | Responded response =>
      if negb (ok response) then
        if (status response =? 401)%N then
          (logout s, Threw (Error "Session expired. Please login again."))
        else
          let errorData :=
            match json response with
            | inl _ => JObject (Some (JsString "Request failed"))
            | inr j => j
            end in
          (s, Threw (Error (stringOr (detailOf errorData)
                              ("HTTP " ++ Js.decimal (status response)))))
      else (s, Resolved response)
  end.

(** ** Documents *)

Definition loadDocuments (s : State) : State :=
  apiCall DocumentsEndpoint GET KLoadDocuments s.

Definition loadDocuments_failed (s : State) : State :=
  alert "Failed to load documents. Please refresh the page." s.

Definition loadDocuments_resume (fr : FetchResult) (s : State) : State :=
  match apiCall_settle fr s with
  | (s, Threw _) => loadDocuments_failed s
  | (s, Resolved response) =>
      match json response with
      | inl _ => loadDocuments_failed s
      | inr j =>
          let s := set_documents j s in
          match renderDocuments (documents s) s with
          | None => loadDocuments_failed s
          | Some s =>
              match updateFilters s with
              | None => loadDocuments_failed s
              | Some s => s
              end
          end
      end
  end.

(** ** Search *)

Definition performSemanticSearch (query : string) (s : State) : State :=
  apiCall (SearchEndpoint query) GET KSearch s.

Definition performSemanticSearch_failed (s : State) : State :=
  alert "Search failed. Please try again." s.

Definition performSemanticSearch_resume (fr : FetchResult) (s : State) : State :=
  match apiCall_settle fr s with
  | (s, Threw _) => performSemanticSearch_failed s
  | (s, Resolved response) =>
      match json response with
      | inl _ => performSemanticSearch_failed s
      | inr searchResults =>
          match renderDocuments searchResults s with
          | None => performSemanticSearch_failed s
          | Some s => s
          end
      end
  end.

(** An exception that no handler catches ends the handler; the state is the
    one at the throw. *)
Definition uncaught (s : State) (r : option State) : State :=
  match r with Some s' => s' | None => s end.

(** The callback the input listener hands to [setTimeout]: it reads the
    field when it runs, not when it was scheduled. *)
Definition searchCallback (s : State) : State :=
  let searchTerm := Js.trim (searchInput s) in
  if (3 <=? String.length searchTerm)%nat then
    performSemanticSearch searchTerm s
  else if (String.length searchTerm =? 0)%nat then
    uncaught s (renderDocuments (documents s) s)
  else s.

(** The ['input'] listener of the search field. *)
Definition onSearchInput (s : State) : State :=
  let s := clearTimeout (searchTimeout s) s in
  let (id, s) := setTimeout 500 s in
  set_searchTimeout (Some id) s.

(** Time passes: the clock advances and every timer that has become due
    runs, oldest first (all timers have the same delay). *)
Definition elapse (ms : Z) (s : State) : State :=
  let t := (now s + Z.max 0 ms)%Z in
  let due := filter (fun p => (snd p <=? t)%Z) (timers s) in
  let later := filter (fun p => negb (snd p <=? t)%Z) (timers s) in
  fold_left (fun st _ => searchCallback st) due (set_now t (set_timers later s)).

(** ** Filters *)

(** What [toDateString()] prints, up to the wording: the calendar day of the
    instant in local time, or Invalid Date. *)
Inductive DateString :=
| InvalidDate
| LocalDay (day : Z).

Definition msPerDay : Z := 24 * 60 * 60 * 1000.

(** The local calendar day of instant [t], counted from the epoch; [tz t] is
    the offset of local time from UTC in force at [t], in milliseconds. *)
Definition localDay (tz : Z -> Z) (t : Z) : Z := ((t + tz t) / msPerDay)%Z.

Definition toDateString (tz : Z -> Z) (d : option Z) : DateString :=
  match d with
  | None => InvalidDate
  | Some t => LocalDay (localDay tz t)
  end.

Definition DateString_eqb (a b : DateString) : bool :=
  match a, b with
  | InvalidDate, InvalidDate => true
  | LocalDay x, LocalDay y => (x =? y)%Z
  | _, _ => false
  end.

(** [docDate >= other] on Date objects: false when [docDate] is invalid. *)
Definition Date_geb (docDate : option Z) (other : Z) : bool :=
  match docDate with
  | None => false
  | Some t => (other <=? t)%Z
  end.

(** The predicate of the date filter, [now] being [new Date()]. *)
Definition dateMatches (tz : Z -> Z) (now : Z) (dateFilter : string)
    (doc : Document) : bool :=
  let docDate := upload_date doc in
  if dateFilter =? "today" then
    DateString_eqb (toDateString tz docDate) (toDateString tz (Some now))
  else if dateFilter =? "week" then
    let weekAgo := (now - 7 * 24 * 60 * 60 * 1000)%Z in
    Date_geb docDate weekAgo
  else if dateFilter =? "month" then
    let monthAgo := (now - 30 * 24 * 60 * 60 * 1000)%Z in
    Date_geb docDate monthAgo
  else true.

Definition categoryMatches (categoryFilter : string) (doc : Document) : bool :=
  Js.toLowerCase (category doc) =? categoryFilter.

Definition authorMatches (authorFilter : string) (doc : Document) : bool :=
  match author doc with
  | Some a => Js.truthy a && Js.includes a authorFilter
  | None => false
  end.

(** [docs.filter(p)]: a TypeError when [docs] is not an array. *)
Definition Array_filter (p : Document -> bool) (docs : Json) : option Json :=
  match docs with
  | JArray l => Some (JArray (filter p l))
  | JObject _ => None
  end.

Definition bind {A B} (o : option A) (f : A -> option B) : option B :=
  match o with Some a => f a | None => None end.

Notation "'let?' x := o 'in' k" := (bind o (fun x => k))
  (at level 10, x name, o at level 100, k at level 200).

(** [filterDocuments()], a ['change'] listener of the three drop-downs. *)
Definition filterDocuments (s : State) : option State :=
  let categoryFilter := Js.toLowerCase (categoryFilter s) in
  let authorFilter := authorFilter s in
  let dateFilter := dateFilter s in
  let filteredDocs := documents s in
  let? filteredDocs :=
    if Js.truthy categoryFilter
    then Array_filter (categoryMatches categoryFilter) filteredDocs
    else Some filteredDocs in
  let? filteredDocs :=
    if Js.truthy authorFilter
    then Array_filter (authorMatches authorFilter) filteredDocs
    else Some filteredDocs in
  let? filteredDocs :=
    if Js.truthy dateFilter
    then Array_filter (dateMatches (timeZone s) (now s) dateFilter) filteredDocs
    else Some filteredDocs in
  renderDocuments filteredDocs s.

(** ** Document detail and download *)

Definition showDocumentDetail (docId : string) (s : State) : State :=
  apiCall (DocumentEndpoint docId) GET KDetail s.

Definition showDocumentDetail_failed (s : State) : State :=
  alert "Failed to load document details. Please try again." s.

Definition showDocumentDetail_resume (fr : FetchResult) (s : State) : State :=
  match apiCall_settle fr s with
  | (s, Threw _) => showDocumentDetail_failed s
  | (s, Resolved response) =>
      match json response with
      | inl _ => showDocumentDetail_failed s
      | inr doc => set_modal (Some doc) s
      end
  end.

Definition closeDocumentModal (s : State) : State := set_modal None s.

(** [downloadDocument(docId)] calls [fetch] itself, with the bearer header
    built from [accessToken] whatever it holds. *)
Definition downloadDocument (docId : string) (s : State) : State :=
  fetch {| endpoint := DownloadEndpoint docId;
           method := GET;
           contentType := None;
           authorization := Some ("Bearer " ++ Js.template (accessToken s));
           formFile := None |} (KDownload docId) s.

(** After the response: the blob is saved under [document_${docId}]; every
    other outcome ends in the one alert of the [catch] block. *)
Definition downloadDocument_resume (docId : string) (fr : FetchResult)
    (s : State) : State :=
  match fr with
  | Rejected _ => alert "Download failed. Please try again." s
  | Responded response =>
      if ok response then effect (Saved ("document_" ++ docId)) s
      else alert "Download failed. Please try again." s
  end.

(** ** Upload *)

Definition allowedTypes : list string :=
  [ "application/pdf";
    "application/vnd.openxmlformats-officedocument.wordprocessingml.document";
    "text/plain" ].

Definition allowed (file : File) : bool := Js.mem (type file) allowedTypes.

Definition unsupportedMessage (file : File) : string :=
  "File " ++ quote ++ name file ++ quote
  ++ " is not supported. Please upload PDF, DOCX, or TXT files only.".

Definition uploadFailedMessage (file : File) (error : Exn) : string :=
  "Failed to upload " ++ name file ++ ": " ++ messageOf error.

(** [uploadSingleFile(file)] up to [await fetch(...)]: one multipart request
    for the one file, sent with [fetch] directly. *)
Definition uploadRequest (file : File) (s : State) : Request :=
  {| endpoint := DocumentsEndpoint;
     method := POST;
     contentType := None;
     authorization := Some ("Bearer " ++ Js.template (accessToken s));
     formFile := Some file |}.

Definition uploadSingleFile (file : File) (k : Cont) (s : State) : State :=
  fetch (uploadRequest file s) k s.

(** [uploadSingleFile] after the response: [None] when the promise fulfils,
    the exception it rejects with otherwise. *)
Definition uploadSingleFile_settle (fr : FetchResult) : option Exn :=
  match fr with
  | Rejected e => Some (Host e)
  | Responded response =>
      if ok response then
        match json response with
        | inl e => Some (Host e)
        | inr result => None
        end
      else
        match json response with
        | inl e => Some (Host e)
        | inr errorData =>
            Some (Error (stringOr (detailOf errorData) "Upload failed"))
        end
  end.

(** The [for ... of] loop of [handleFileUpload] from [files] on, up to the
    next [await]; after the last file the list is reloaded and the file
    input cleared. *)
Fixpoint uploadLoop (files : list File) (s : State) : State :=
  match files with
  | [] => set_fileInput [] (loadDocuments s)
  | file :: rest =>
      if negb (allowed file) then
        uploadLoop rest (alert (unsupportedMessage file) s)
      else uploadSingleFile file (KUpload file rest) s
  end.

Definition handleFileUpload (files : list File) (s : State) : State :=
  match files with
  | [] => s
  | _ => uploadLoop files s
  end.

Definition handleFileUpload_resume (file : File) (rest : list File)
    (fr : FetchResult) (s : State) : State :=
  match uploadSingleFile_settle fr with
  | None => uploadLoop rest s
  | Some error => uploadLoop rest (alert (uploadFailedMessage file error) s)
  end.

(** ** The event loop *)

Inductive Event :=
| Typed (value : string)                (* ['input'] on the search field *)
| Wait (ms : Z)                         (* [ms] milliseconds pass *)
| Settled (id : nat) (fr : FetchResult) (* the fetch [id] resolves or rejects *)
| CategoryChanged (value : string)
| AuthorChanged (value : string)
| DateChanged (value : string)
| FilesChosen (files : list File)       (* ['change'] on the file input *)
| FilesDropped (files : list File)      (* ['drop'] on the upload area *)
| ViewClicked (docId : string)
| DownloadClicked (docId : string)
| ModalClosed
| LogoutClicked.

Definition resume (k : Cont) (fr : FetchResult) (s : State) : State :=
  match k with
  | KLoadDocuments => loadDocuments_resume fr s
  | KSearch => performSemanticSearch_resume fr s
  | KDetail => showDocumentDetail_resume fr s
  | KDownload docId => downloadDocument_resume docId fr s
  | KUpload file rest => handleFileUpload_resume file rest fr s
  end.

Definition step (s : State) (e : Event) : State :=
  match e with
  | Typed value => onSearchInput (set_searchInput value s)
  | Wait ms => elapse ms s
  | Settled id fr =>
      match pending id (inflight s) with
      | None => s
      | Some k => resume k fr (set_inflight (forget id (inflight s)) s)
      end
  | CategoryChanged v =>
      let s := set_categoryFilter v s in uncaught s (filterDocuments s)
  | AuthorChanged v =>
      let s := set_authorFilter v s in uncaught s (filterDocuments s)
  | DateChanged v =>
      let s := set_dateFilter v s in uncaught s (filterDocuments s)
  | FilesChosen files => handleFileUpload files (set_fileInput files s)
  | FilesDropped files => handleFileUpload files s
  | ViewClicked docId => showDocumentDetail docId s
  | DownloadClicked docId => downloadDocument docId s
  | ModalClosed => closeDocumentModal s
  | LogoutClicked => logout s
  end.

Definition run (events : list Event) (s : State) : State :=
  fold_left step events s.

(** ** Vocabulary of the statements *)

(** *** Reading the log *)

(** The files of the multipart requests in a log, in the order sent. *)
Definition uploadsOf (l : list Effect) : list File :=
  flat_map (fun e => match e with
                     | Sent _ r => match formFile r with
                                   | Some f => [f]
                                   | None => []
                                   end
                     | _ => []
                     end) l.

Definition alertsOf (l : list Effect) : list string :=
  flat_map (fun e => match e with Alert m => [m] | _ => [] end) l.

Definition requestsOf (l : list Effect) : list Request :=
  flat_map (fun e => match e with Sent _ r => [r] | _ => [] end) l.

(** Request identifiers in flight are older than the next one to hand out. *)
Definition WellFormed (s : State) : Prop :=
  Forall (fun p => fst p < nextRequest s) (inflight s).

(** The response a backend gives to a rejected credential. *)
Definition unauthorized (body : HostError + Json) : FetchResult :=
  Responded {| ok := false; status := 401; json := body |}.

(** The documents one run of [filterDocuments] keeps, as one predicate. *)
Definition keeps (s : State) (doc : Document) : bool :=
  let c := Js.toLowerCase (categoryFilter s) in
  (negb (Js.truthy c) || categoryMatches c doc)
  && (negb (Js.truthy (authorFilter s)) || authorMatches (authorFilter s) doc)
  && (negb (Js.truthy (dateFilter s))
      || dateMatches (timeZone s) (now s) (dateFilter s) doc).

(** What each selection asks of a document, in the words of the
    specification.  The empty selection asks nothing. *)
Definition satisfiesCategory (selected : string) (doc : Document) : Prop :=
  selected = ""
  \/ Js.toLowerCase (category doc) = Js.toLowerCase selected.

Definition satisfiesAuthor (selected : string) (doc : Document) : Prop :=
  selected = ""
  \/ exists a pre post, author doc = Some a /\ a = pre ++ selected ++ post.

Definition satisfiesDate (tz : Z -> Z) (now : Z) (selected : string)
    (doc : Document) : Prop :=
  (selected = "today" ->
     exists t, upload_date doc = Some t /\ localDay tz t = localDay tz now)
  /\ (selected = "week" ->
        exists t, upload_date doc = Some t /\ (now - t <= 7 * (24 * 60 * 60 * 1000))%Z)
  /\ (selected = "month" ->
        exists t, upload_date doc = Some t /\ (now - t <= 30 * (24 * 60 * 60 * 1000))%Z).

(** A successful response with a parsed body. *)
Definition success (st : N) (j : Json) : FetchResult :=
  Responded {| ok := true; status := st; json := inr j |}.

(** Keystrokes, each with the pause that follows it. *)
Fixpoint typing (keys : list (string * Z)) : list Event :=
  match keys with
  | [] => []
  | (value, pause) :: rest => Typed value :: Wait pause :: typing rest
  end.

Fixpoint elapsed (keys : list (string * Z)) : Z :=
  match keys with
  | [] => 0
  | (_, pause) :: rest => Z.max 0 pause + elapsed rest
  end.

(** Every pending timer is the one [searchTimeout] names. *)
Definition Tracked (s : State) : Prop :=
  forall p, In p (timers s) -> searchTimeout s = Some (fst p).

(** [s] at instant [t] with [value] in the search field, the last timer [n]
    gone and none pending. *)
Definition quiescent (value : string) (t : Z) (n : nat) (s : State) : State :=
  set_now t
    (set_timers []
       (set_nextTimer (S n)
          (set_searchTimeout (Some n)
             (set_searchInput value s)))).

(** [s] at instant [t] with [value] in the search field and timer [n] due at
    [due]. *)
Definition armed (value : string) (t due : Z) (n : nat) (s : State) : State :=
  set_now t
    (set_timers [(n, due)]
       (set_nextTimer (S n)
          (set_searchTimeout (Some n)
             (set_searchInput value s)))).

Definition isUpload (p : nat * Cont) : bool :=
  match snd p with KUpload _ _ => true | _ => false end.

(** The identifier of the upload awaiting its response, if there is one. *)
Definition uploadInFlight (s : State) : option nat :=
  match filter isUpload (inflight s) with
  | [] => None
  | p :: _ => Some (fst p)
  end.

(** The backend answers the upload in flight, one answer after another. *)
Fixpoint settleUploads (replies : list FetchResult) (s : State) : State :=
  match replies with
  | [] => s
  | fr :: rest =>
      match uploadInFlight s with
      | Some id => settleUploads rest (step s (Settled id fr))
      | None => s
      end
  end.


(** No upload is waiting, and identifiers in flight are older than the next. *)
Definition Idle (s : State) : Prop :=
  WellFormed s /\ filter isUpload (inflight s) = [].

(** The state in which the response to the upload of [file] finds the
    script: the request is in the log and no longer in flight. *)
Definition uploaded (file : File) (s : State) : State :=
  set_nextRequest (S (nextRequest s))
    (set_log (log s ++ [Sent (nextRequest s) (uploadRequest file s)]) s).

(** [s'] has the timers of [s], and the same one in [searchTimeout]. *)
Definition SameTimers (s s' : State) : Prop :=
  timers s' = timers s /\ searchTimeout s' = searchTimeout s.

(** ** States and inputs of the examples *)

Definition utc : Z -> Z := fun _ => 0%Z.

(** The drop-downs of the examples: their markup starts with the fixed
    option, whose value is empty, and selects no other. *)
Definition noneSelected : string -> string := fun _ => "".

Definition report : Document :=
  {| docid := "d1"; filename := "report.pdf"; category := "Finance";
     author := Some "Ann Lee"; upload_date := Some 1700000000000%Z;
     summary := Some "Quarterly report"; content_preview := None |}.

Definition contract : Document :=
  {| docid := "d2"; filename := "contract.docx"; category := "Legal";
     author := Some "Bob Ray"; upload_date := Some 1699000000000%Z;
     summary := None; content_preview := None |}.

Definition memo : Document :=
  {| docid := "d3"; filename := "memo.txt"; category := "HR";
     author := None; upload_date := Some 1690000000000%Z;
     summary := None; content_preview := None |}.

(** A scan whose upload date does not parse. *)
Definition undated : Document :=
  {| docid := "d4"; filename := "scan.pdf"; category := "Legal";
     author := None; upload_date := None;
     summary := None; content_preview := None |}.

(** A dashboard at instant [1700003600000] (UTC): [admin] is logged in with
    token [tok123] and the list of three documents is loaded and shown; the
    log and the request counter start afresh. *)
Definition dashboard : State :=
  {| currentUser := Some {| username := "admin"; role := "Admin" |};
     documents := JArray [report; contract; memo];
     accessToken := Some "tok123";
     searchTimeout := None;
     localStorage := Some "tok123";
     page := DashboardPage;
     grid := [report; contract; memo];
     categoryOptions := categoryMarkup [report; contract; memo];
     authorOptions := authorMarkup [report; contract; memo];
     categoryFilter := "";
     authorFilter := "";
     dateFilter := "";
     searchInput := "";
     fileInput := [];
     modal := None;
     now := 1700003600000%Z;
     timeZone := utc;
     selectValue := noneSelected;
     timers := [];
     nextTimer := 0;
     inflight := [];
     nextRequest := 0;
     log := [] |}.

(** Two searches dispatched from the dashboard, 0 for [abc] and then 1 for
    [abcd], both still in flight. *)
Definition twoSearches : State :=
  run [Typed "abc"; Wait 500; Typed "abcd"; Wait 500] dashboard.

Definition file1 : File := {| name := "report.pdf"; type := "application/pdf" |}.
Definition file2 : File := {| name := "setup.exe"; type := "application/x-msdownload" |}.
Definition file3 : File := {| name := "notes.txt"; type := "text/plain" |}.

(** ** Forms, profile and page load

    The login and signup forms, [loadUserInfo], [showDashboard], the health
    check and the [DOMContentLoaded] listener, as a second layer around
    [State]: a [Client] adds the form controls and the requests of these
    handlers, which go to endpoints of their own.  Request identifiers come
    from the one counter of [State].  The texts [loadUserInfo] writes into
    the header (name and avatar letter) are markup and are not kept. *)

Module Auth.

Record SignupFields := {
  signupUsername : string;
  signupEmail : string;
  signupRole : string;
  signupPassword : string;
  confirmPassword : string
}.

Record Forms := mkForms {
  loginUsername : string;
  loginPassword : string;
  loginButtonText : string;       (* [textContent] of the login submit button *)
  loginButtonDisabled : bool;
  signup : SignupFields;
  signupDefaults : SignupFields;  (* the values the markup gives the controls *)
  signupButtonText : string;
  signupButtonDisabled : bool
}.

Inductive AuthRequest :=
| HealthRequest                                         (* GET /health *)
| TokenRequest (username password : string)             (* POST /token, form data *)
| ProfileRequest (authorization : option string)        (* GET /users/me, by [apiCall] *)
| SignupRequest (authorization : option string)
    (username password role : string).                  (* POST /users/, JSON, by [apiCall] *)

Inductive AuthCont :=
| KHealth
| KToken           (* the login handler awaiting [fetch('/token')] *)
| KLoginProfile    (* the login handler awaiting [loadUserInfo()] *)
| KProfile         (* [loadUserInfo()] started by [showDashboard()] *)
| KSignup.

(** What [/token] answers, as far as the login handler reads it: whether the
    response is ok, and what [response.json()] gives, an object with
    [access_token] when ok and one with [detail] otherwise. *)
Inductive TokenReply :=
| TokenRejected (e : HostError)
| TokenGranted (body : HostError + string)
| TokenRefused (status : N) (body : HostError + option JsValue).

(** What [/users/me] answers; an ok response parses to the profile. *)
Inductive ProfileReply :=
| ProfileRejected (e : HostError)
| ProfileOk (body : HostError + UserProfile)
| ProfileRefused (status : N) (body : HostError + option JsValue).

Record Client := mkClient {
  app : State;
  forms : Forms;
  waiting : list (nat * AuthCont);
  sent : list (nat * AuthRequest)
}.

Definition set_app (v : State) (c : Client) : Client :=
  mkClient v (forms c) (waiting c) (sent c).

Definition set_forms (v : Forms) (c : Client) : Client :=
  mkClient (app c) v (waiting c) (sent c).

Definition set_loginButton (text : string) (disabled : bool) (c : Client) : Client :=
  let f := forms c in
  set_forms (mkForms (loginUsername f) (loginPassword f) text disabled
               (signup f) (signupDefaults f)
               (signupButtonText f) (signupButtonDisabled f)) c.

Definition set_signupButton (text : string) (disabled : bool) (c : Client) : Client :=
  let f := forms c in
  set_forms (mkForms (loginUsername f) (loginPassword f)
               (loginButtonText f) (loginButtonDisabled f)
               (signup f) (signupDefaults f) text disabled) c.

Definition set_login (username password : string) (c : Client) : Client :=
  let f := forms c in
  set_forms (mkForms username password
               (loginButtonText f) (loginButtonDisabled f)
               (signup f) (signupDefaults f)
               (signupButtonText f) (signupButtonDisabled f)) c.

Definition set_signup (v : SignupFields) (c : Client) : Client :=
  let f := forms c in
  set_forms (mkForms (loginUsername f) (loginPassword f)
               (loginButtonText f) (loginButtonDisabled f)
               v (signupDefaults f)
               (signupButtonText f) (signupButtonDisabled f)) c.

(** A handler of the first layer run on the client. *)
Definition lift (f : State -> State) (c : Client) : Client := set_app (f (app c)) c.

(** [fetch(url, config)] by a handler of this layer. *)
Definition request (r : AuthRequest) (k : AuthCont) (c : Client) : Client :=
  let id := nextRequest (app c) in
  mkClient (set_nextRequest (S id) (app c)) (forms c)
    (waiting c ++ [(id, k)]) (sent c ++ [(id, r)]).

Fixpoint awaiting (id : nat) (l : list (nat * AuthCont)) : option AuthCont :=
  match l with
  | [] => None
  | (i, k) :: l' => if Nat.eqb i id then Some k else awaiting id l'
  end.

Definition drop (id : nat) (c : Client) : Client :=
  mkClient (app c) (forms c)
    (filter (fun p => negb (Nat.eqb (fst p) id)) (waiting c)) (sent c).

(** The [Authorization] header [apiCall] builds: present when [accessToken]
    is truthy. *)
Definition bearer (s : State) : option string :=
  match accessToken s with
  | Some t => if Js.truthy t then Some ("Bearer " ++ t) else None
  | None => None
  end.

(** Reading an identifier that no enclosing scope declares raises a
    ReferenceError.  Both submit handlers declare [originalText] with
    [const] inside their [try] block and read it in their [finally] block,
    where it is not in scope; the page is taken to define no global of that
    name. *)
Definition undeclared {A : Type} : option A := None.

(** An exception no handler catches: the client stays as it was. *)
Definition unhandled (c : Client) (r : option Client) : Client :=
  match r with Some c' => c' | None => c end.

(** *** Profile and dashboard *)

Definition loadUserInfo (k : AuthCont) (c : Client) : Client :=
  request (ProfileRequest (bearer (app c))) k c.

Definition refusal (st : N) (body : HostError + option JsValue) : FetchResult :=
  Responded {| ok := false; status := st;
               json := match body with
                       | inl e => inl e
                       | inr detail => inr (JObject detail)
                       end |}.

(** [loadUserInfo] after its awaits.  Whatever [apiCall] or [json()] throws
    is caught and only logged to the console. *)
Definition loadUserInfo_resume (r : ProfileReply) (s : State) : State :=
  match r with
  | ProfileRejected e => fst (apiCall_settle (Rejected e) s)
  | ProfileRefused st body => fst (apiCall_settle (refusal st body) s)
  | ProfileOk (inl _) => s
  | ProfileOk (inr userData) => set_currentUser (Some userData) s
  end.

Definition showSignup (s : State) : State := set_page SignupPage s.

Definition showDashboard (c : Client) : Client :=
  loadUserInfo KProfile (lift loadDocuments (lift (set_page DashboardPage) c)).

(** *** Login *)

Definition login_catch (c : Client) : Client :=
  lift (alert "Login failed. Please check your connection and try again.") c.

Definition login_finally (c : Client) : option Client :=
  let? originalText := undeclared in
  Some (set_loginButton originalText false c).

(** The end of every path through the [try] statement: the [finally] block
    runs, and what it throws rejects the handler's promise. *)
Definition login_end (c : Client) : Client := unhandled c (login_finally c).

(** The ['submit'] listener of the login form, up to [await fetch(...)]. *)
Definition loginSubmit (c : Client) : Client :=
  let username := loginUsername (forms c) in
  let password := loginPassword (forms c) in
  if negb (Js.truthy username) || negb (Js.truthy password) then
    lift (alert "Please enter username and password") c
  else
    let c := set_loginButton "Logging in..." true c in
    request (TokenRequest username password) KToken c.

Definition login_resume (r : TokenReply) (c : Client) : Client :=
  match r with
  | TokenRejected _ => login_end (login_catch c)
  | TokenGranted (inl _) => login_end (login_catch c)
  | TokenGranted (inr access_token) =>
      let c := lift (set_accessToken (Some access_token)) c in
      let c := lift (set_localStorage (accessToken (app c))) c in
      loadUserInfo KLoginProfile c
  | TokenRefused _ (inl _) => login_end (login_catch c)
  | TokenRefused _ (inr detail) =>
      login_end (lift (alert (stringOr detail "Login failed")) c)
  end.

(** The login handler once [await loadUserInfo()] returns. *)
Definition login_profile_resume (r : ProfileReply) (c : Client) : Client :=
  login_end (showDashboard (lift (loadUserInfo_resume r) c)).

(** *** Signup *)

Definition signup_finally (c : Client) : option Client :=
  let? originalText := undeclared in
  Some (set_signupButton originalText false c).

Definition signup_end (c : Client) : Client := unhandled c (signup_finally c).

(** The ['submit'] listener of the signup form, up to [await apiCall(...)].
    The body of the request has [username], [password] and [role]. *)
Definition signupSubmit (c : Client) : Client :=
  let f := signup (forms c) in
  if negb (signupPassword f =? confirmPassword f) then
    lift (alert "Passwords do not match") c
  else if negb (Js.truthy (signupUsername f)) || negb (Js.truthy (signupEmail f))
          || negb (Js.truthy (signupRole f)) || negb (Js.truthy (signupPassword f))
  then lift (alert "Please fill in all fields") c
  else
    let c := set_signupButton "Creating Account..." true c in
    request (SignupRequest (bearer (app c)) (signupUsername f)
             (signupPassword f) (signupRole f)) KSignup c.

Definition signup_resume (fr : FetchResult) (c : Client) : Client :=
  let (s, outcome) := apiCall_settle fr (app c) in
  let c := set_app s c in
  match outcome with
  | Resolved response =>
      if ok response then
        let c := lift (alert "Account created successfully! Please login.") c in
        let c := lift showLogin c in
        signup_end (set_signup (signupDefaults (forms c)) c)
      else signup_end c
  | Threw error =>
      let message := messageOf error in
      signup_end
        (lift (alert (if Js.truthy message then message
                      else "Registration failed. Please try again.")) c)
  end.

(** *** Page load *)

Definition checkBackendHealth (c : Client) : Client :=
  request HealthRequest KHealth c.

(** The top level of the script, run on the page as the browser has it:
    the three module variables are initialised and the health check
    starts. *)
Definition boot (c : Client) : Client :=
  checkBackendHealth
    (lift (fun s =>
             set_accessToken (localStorage s)
               (set_documents (JArray [])
                  (set_currentUser None
                     (set_searchTimeout None s)))) c).

(** The [DOMContentLoaded] listener. *)
Definition init (c : Client) : Client :=
  match accessToken (app c) with
  | Some t => if Js.truthy t then showDashboard c else lift showLogin c
  | None => lift showLogin c
  end.

(** *** Events *)

Inductive AuthEvent :=
| App (e : Event)                                  (* an event of the first layer *)
| PageLoaded                                       (* [DOMContentLoaded] *)
| LoginFilled (username password : string)
| LoginSubmitted
| SignupFilled (fields : SignupFields)
| SignupSubmitted
| SignupLinkClicked                                (* [showSignup()] *)
| LoginLinkClicked                                 (* [showLogin()] *)
| HealthSettled (id : nat)
| TokenSettled (id : nat) (r : TokenReply)
| ProfileSettled (id : nat) (r : ProfileReply)
| SignupSettled (id : nat) (fr : FetchResult).

Definition step (c : Client) (e : AuthEvent) : Client :=
  match e with
  | App e => lift (fun s => step s e) c
  | PageLoaded => init c
  | LoginFilled username password => set_login username password c
  | LoginSubmitted => loginSubmit c
  | SignupFilled fields => set_signup fields c
  | SignupSubmitted => signupSubmit c
  | SignupLinkClicked => lift showSignup c
  | LoginLinkClicked => lift showLogin c
  | HealthSettled id =>
      match awaiting id (waiting c) with
      | Some KHealth => drop id c
      | _ => c
      end
  | TokenSettled id r =>
      match awaiting id (waiting c) with
      | Some KToken => login_resume r (drop id c)
      | _ => c
      end
  | ProfileSettled id r =>
      match awaiting id (waiting c) with
      | Some KLoginProfile => login_profile_resume r (drop id c)
      | Some KProfile => lift (loadUserInfo_resume r) (drop id c)
      | _ => c
      end
  | SignupSettled id fr =>
      match awaiting id (waiting c) with
      | Some KSignup => signup_resume fr (drop id c)
      | _ => c
      end
  end.

Definition run (events : list AuthEvent) (c : Client) : Client :=
  fold_left step events c.

End Auth.

(** ** Vocabulary of the further properties *)

(** At most one debounce timer is pending, the one [searchTimeout] names. *)
Definition Debounced (s : State) : Prop :=
  timers s = []
  \/ exists id due, timers s = [(id, due)] /\ searchTimeout s = Some id.

(** A request that reloads the list: [GET /documents/]. *)
Definition isReload (r : Request) : bool :=
  match endpoint r, method r with
  | DocumentsEndpoint, GET => true
  | _, _ => false
  end.

Definition reloadsOf (l : list Effect) : list Request :=
  filter isReload (requestsOf l).

(** A string of white space only (the empty string included). *)
Fixpoint blank (s : string) : bool :=
  match s with
  | EmptyString => true
  | String c s' => Js.isWhiteSpace c && blank s'
  end.

(** A fetch that fails without a 401: the transport fails, the status is an
    error other than 401, or the body of an ok response does not parse. *)
Definition failsQuietly (fr : FetchResult) : bool :=
  match fr with
  | Rejected _ => true
  | Responded r =>
      if ok r then match json r with inl _ => true | inr _ => false end
      else negb (status r =? 401)%N
  end.

(** Identifiers awaited by the handlers of the forms are older than the next
    one to hand out. *)
Definition ClientWellFormed (c : Auth.Client) : Prop :=
  Forall (fun p => fst p < nextRequest (Auth.app c)) (Auth.waiting c).

(** The token in memory is the persisted one. *)
Definition Synced (s : State) : Prop := accessToken s = localStorage s.

(** An answer of [/token] other than a parsed ok response. *)
Definition denied (r : Auth.TokenReply) : bool :=
  match r with
  | Auth.TokenGranted (inr _) => false
  | _ => true
  end.

(** The signup form may be sent: the passwords agree and no field is empty. *)
Definition signupValid (f : Auth.SignupFields) : Prop :=
  Auth.signupPassword f = Auth.confirmPassword f
  /\ Auth.signupUsername f <> "" /\ Auth.signupEmail f <> ""
  /\ Auth.signupRole f <> "" /\ Auth.signupPassword f <> "".

(** ** Clients of the examples *)

Definition noSignup : Auth.SignupFields :=
  {| Auth.signupUsername := ""; Auth.signupEmail := ""; Auth.signupRole := "";
     Auth.signupPassword := ""; Auth.confirmPassword := "" |}.

(** The page as the browser has it before the script runs, at instant
    [1700003600000] (UTC), with [stored] under [access_token] in local
    storage. *)
Definition served (stored : option string) : Auth.Client :=
  {| Auth.app :=
       {| currentUser := None; documents := JArray []; accessToken := None;
          searchTimeout := None; localStorage := stored; page := LoginPage;
          grid := []; categoryOptions := ""; authorOptions := "";
          categoryFilter := ""; authorFilter := ""; dateFilter := "";
          searchInput := ""; fileInput := []; modal := None;
          now := 1700003600000%Z; timeZone := utc;
          selectValue := noneSelected; timers := [];
          nextTimer := 0; inflight := []; nextRequest := 0; log := [] |};
     Auth.forms :=
       {| Auth.loginUsername := ""; Auth.loginPassword := "";
          Auth.loginButtonText := "Login"; Auth.loginButtonDisabled := false;
          Auth.signup := noSignup; Auth.signupDefaults := noSignup;
          Auth.signupButtonText := "Sign Up";
          Auth.signupButtonDisabled := false |};
     Auth.waiting := [];
     Auth.sent := [] |}.

(** A first visit: nothing stored, the script has run and the page has
    loaded. *)
Definition visitor : Auth.Client :=
  Auth.run [Auth.PageLoaded] (Auth.boot (served None)).

Definition admin : UserProfile := {| username := "admin"; role := "Admin" |}.

(** A signup form filled in. *)
Definition newcomer : Auth.SignupFields :=
  {| Auth.signupUsername := "carol"; Auth.signupEmail := "carol@example.org";
     Auth.signupRole := "Legal"; Auth.signupPassword := "s3cret";
     Auth.confirmPassword := "s3cret" |}.

(** * Session teardown *)

Lemma logout_fields s :
  currentUser (logout s) = None /\ accessToken (logout s) = None
  /\ localStorage (logout s) = None /\ documents (logout s) = JArray []
  /\ page (logout s) = LoginPage.
Proof. repeat split. Qed.

Lemma logout_idempotent s : logout (logout s) = logout s.
Proof. reflexivity. Qed.

Lemma documents_alert m s : documents (alert m s) = documents s.
Proof. reflexivity. Qed.

Lemma apiCall_settle_401 body s :
  apiCall_settle (unauthorized body) s
  = (logout s, Threw (Error "Session expired. Please login again.")).
Proof. reflexivity. Qed.

(** C10: [logout()] clears the token, the user, the persisted token and the
    document collection; a second call changes nothing; and a 401 seen by
    [apiCall] leaves the collection empty, whichever caller was waiting. *)
Theorem logout_empties_collection :
  forall s : State,
    (accessToken (logout s) = None
     /\ currentUser (logout s) = None
     /\ localStorage (logout s) = None
     /\ documents (logout s) = JArray [])
    /\ logout (logout s) = logout s
    /\ (forall body,
          fst (apiCall_settle (unauthorized body) s) = logout s
          /\ documents (loadDocuments_resume (unauthorized body) s) = JArray []
          /\ documents (performSemanticSearch_resume (unauthorized body) s) = JArray []
          /\ documents (showDocumentDetail_resume (unauthorized body) s) = JArray []).
Proof.
  intro s. split; [|split].
  - repeat split.
  - apply logout_idempotent.
  - intro body. repeat split.
Qed.

(** * Filters *)

Lemma filter_filter {A} (p q : A -> bool) l :
  filter q (filter p l) = filter (fun x => p x && q x) l.
Proof.
  induction l as [|a l IH]; simpl; [reflexivity|].
  destruct (p a); simpl; [destruct (q a)|]; rewrite IH; reflexivity.
Qed.

Lemma filter_all {A} (l : list A) : filter (fun _ => true) l = l.
Proof. induction l; simpl; congruence. Qed.

Lemma filterDocuments_eq s :
  filterDocuments s
  = match documents s with
    | JArray docs => Some (set_grid (filter (keeps s) docs) s)
    | JObject _ => None
    end.
Proof.
  unfold filterDocuments, keeps.
  destruct (documents s) as [d|docs];
    destruct (Js.truthy (Js.toLowerCase (categoryFilter s)));
    destruct (Js.truthy (authorFilter s));
    destruct (Js.truthy (dateFilter s)); simpl; try reflexivity;
    rewrite ?filter_filter; f_equal; f_equal;
    try (apply filter_ext; intro; simpl;
         rewrite ?andb_true_r, ?andb_assoc; reflexivity).
  symmetry; apply filter_all.
Qed.

(** C9: [filterDocuments] leaves [documents] alone, sends no request and
    raises no alert; run again at the same instant with the same selections
    it renders the same list. *)
Theorem filterDocuments_pure_idempotent :
  forall s : State,
    let s' := uncaught s (filterDocuments s) in
    documents s' = documents s
    /\ log s' = log s
    /\ inflight s' = inflight s
    /\ nextRequest s' = nextRequest s
    /\ grid (uncaught s' (filterDocuments s')) = grid s'
    /\ uncaught s' (filterDocuments s') = s'.
Proof.
  intro s. cbv zeta. rewrite filterDocuments_eq.
  destruct (documents s) as [d|docs] eqn:E; simpl.
  - rewrite filterDocuments_eq, E. simpl. repeat split; assumption.
  - rewrite filterDocuments_eq. simpl. rewrite E. repeat split; assumption.
Qed.

Lemma truthy_spec s : Js.truthy s = true <-> s <> "".
Proof. destruct s; simpl; split; congruence. Qed.

Lemma truthy_false s : Js.truthy s = false <-> s = "".
Proof. destruct s; simpl; split; congruence. Qed.

Lemma toLowerCase_empty s : Js.toLowerCase s = "" <-> s = "".
Proof. destruct s; simpl; split; congruence. Qed.

Lemma prefix_spec sub : forall s,
  String.prefix sub s = true <-> exists post, s = sub ++ post.
Proof.
  induction sub as [|a sub IH]; intro s; simpl.
  - split; [exists s; reflexivity | destruct s; reflexivity].
  - destruct s as [|b s]; simpl.
    + split; [discriminate | intros [post H]; discriminate].
    + destruct (ascii_dec a b) as [->|Hab].
      * rewrite IH. split; intros [post H]; exists post; congruence.
      * split; [discriminate | intros [post H]; congruence].
Qed.

Lemma includes_nil sub : Js.includes "" sub = String.prefix sub "" || false.
Proof. reflexivity. Qed.

Lemma includes_cons c s sub :
  Js.includes (String c s) sub
  = String.prefix sub (String c s) || Js.includes s sub.
Proof. reflexivity. Qed.

Lemma includes_spec sub : forall s,
  Js.includes s sub = true <-> exists pre post, s = pre ++ sub ++ post.
Proof.
  induction s as [|c s IH].
  - rewrite includes_nil, orb_true_iff, prefix_spec. split.
    + intros [[post H]|H]; [|discriminate]. exists "", post. exact H.
    + intros [pre [post H]]. left. destruct pre; simpl in H.
      * exists post; exact H.
      * discriminate.
  - rewrite includes_cons, orb_true_iff, prefix_spec, IH. split.
    + intros [[post H]|[pre [post H]]].
      * exists "", post. exact H.
      * exists (String c pre), post. simpl. congruence.
    + intros [pre [post H]]. destruct pre as [|c' pre]; simpl in H.
      * left. exists post. exact H.
      * right. exists pre, post. congruence.
Qed.

Lemma categoryMatches_spec selected doc :
  negb (Js.truthy (Js.toLowerCase selected))
  || categoryMatches (Js.toLowerCase selected) doc = true
  <-> satisfiesCategory selected doc.
Proof.
  unfold satisfiesCategory, categoryMatches.
  rewrite orb_true_iff, negb_true_iff, truthy_false, toLowerCase_empty.
  rewrite String.eqb_eq. reflexivity.
Qed.

Lemma authorMatches_spec selected doc :
  negb (Js.truthy selected) || authorMatches selected doc = true
  <-> satisfiesAuthor selected doc.
Proof.
  unfold satisfiesAuthor, authorMatches.
  rewrite orb_true_iff, negb_true_iff, truthy_false.
  split; (intros [H|H]; [left; exact H|]).
  - destruct (author doc) as [a|]; [|discriminate].
    apply andb_true_iff in H. destruct H as [_ H].
    apply includes_spec in H. destruct H as [pre [post H]].
    right. exists a, pre, post. split; [reflexivity | exact H].
  - destruct H as [a [pre [post [Ha H]]]]. rewrite Ha.
    destruct (Js.truthy selected) eqn:T.
    + right. apply andb_true_iff. split.
      * destruct a; [|reflexivity].
        destruct pre; [destruct selected; discriminate | discriminate].
      * apply includes_spec. exists pre, post. exact H.
    + left. apply truthy_false. exact T.
Qed.

Lemma dateMatches_spec tz now selected doc :
  negb (Js.truthy selected) || dateMatches tz now selected doc = true
  <-> satisfiesDate tz now selected doc.
Proof.
  unfold satisfiesDate, dateMatches.
  destruct (String.eqb_spec selected "today") as [->|H1];
    [|destruct (String.eqb_spec selected "week") as [->|H2];
      [|destruct (String.eqb_spec selected "month") as [->|H3]]]; simpl.
  - destruct (upload_date doc) as [t|]; simpl.
    + rewrite Z.eqb_eq. split.
      * intro H. repeat split; try discriminate. intros _. exists t. auto.
      * intros [H _]. destruct (H eq_refl) as [t' [E H']]. congruence.
    + split; [discriminate|]. intros [H _].
      destruct (H eq_refl) as [t' [E _]]. discriminate.
  - destruct (upload_date doc) as [t|]; simpl.
    + rewrite Z.leb_le. split.
      * intro H. repeat split; try discriminate. intros _. exists t.
        split; [reflexivity | lia].
      * intros [_ [H _]]. destruct (H eq_refl) as [t' [E H']].
        injection E as <-. lia.
    + split; [discriminate|]. intros [_ [H _]].
      destruct (H eq_refl) as [t' [E _]]. discriminate.
  - destruct (upload_date doc) as [t|]; simpl.
    + rewrite Z.leb_le. split.
      * intro H. repeat split; try discriminate. intros _. exists t.
        split; [reflexivity | lia].
      * intros [_ [_ H]]. destruct (H eq_refl) as [t' [E H']].
        injection E as <-. lia.
    + split; [discriminate|]. intros [_ [_ H]].
      destruct (H eq_refl) as [t' [E _]]. discriminate.
  - rewrite orb_true_r. split; [|reflexivity].
    intros _. repeat split; intro; contradiction.
Qed.

Lemma keeps_spec s doc :
  keeps s doc = true
  <-> satisfiesCategory (categoryFilter s) doc
      /\ satisfiesAuthor (authorFilter s) doc
      /\ satisfiesDate (timeZone s) (now s) (dateFilter s) doc.
Proof.
  unfold keeps. cbv zeta. rewrite !andb_true_iff.
  rewrite categoryMatches_spec, authorMatches_spec, dateMatches_spec.
  tauto.
Qed.

(** C8: on a loaded collection, [filterDocuments] renders exactly the
    documents that satisfy the category, author and date selections together,
    in their order; [today] means the same local calendar day as now, [week]
    and [month] an upload at most 7×24h and 30×24h before now, and an empty
    selection asks nothing. *)
Theorem filterDocuments_keeps_conjunction :
  forall (s : State) (docs : list Document),
    documents s = JArray docs ->
    exists keep : Document -> bool,
      filterDocuments s = Some (set_grid (filter keep docs) s)
      /\ forall doc,
           keep doc = true
           <-> satisfiesCategory (categoryFilter s) doc
               /\ satisfiesAuthor (authorFilter s) doc
               /\ satisfiesDate (timeZone s) (now s) (dateFilter s) doc.
Proof.
  intros s docs E. exists (keeps s). split.
  - rewrite filterDocuments_eq, E. reflexivity.
  - intro doc. apply keeps_spec.
Qed.

Lemma filterDocuments_keeps_conjunction_witness :
  documents (set_dateFilter "week" dashboard) = JArray [report; contract; memo]
  /\ exists keep : Document -> bool,
       filterDocuments (set_dateFilter "week" dashboard)
       = Some (set_grid (filter keep [report; contract; memo])
                 (set_dateFilter "week" dashboard))
       /\ forall doc,
            keep doc = true
            <-> satisfiesCategory "" doc /\ satisfiesAuthor "" doc
                /\ satisfiesDate utc 1700003600000 "week" doc.
Proof.
  split; [reflexivity|].
  exact (filterDocuments_keeps_conjunction
           (set_dateFilter "week" dashboard) [report; contract; memo] eq_refl).
Defined.

(** With [week] selected, of the three documents only the report, one hour
    old, stays: the contract is eleven days old, the memo older still. *)
Example week_filter_excludes_older :
  grid (step dashboard (DateChanged "week")) = [report].
Proof. reflexivity. Qed.

(** * The collection after a fetch *)

(** C4, as amended: a successful list fetch replaces [documents] with the
    body of the response, whatever it is; a successful search leaves
    [documents] as it was and shows its result in the grid only. *)
Theorem list_fetch_replaces_search_only_renders :
  forall (s : State) (st : N),
    (forall j : Json,
        documents (loadDocuments_resume (success st j) s) = j
        /\ documents (performSemanticSearch_resume (success st j) s) = documents s)
    /\ (forall docs : list Document,
          grid (loadDocuments_resume (success st (JArray docs)) s) = docs
          /\ grid (performSemanticSearch_resume (success st (JArray docs)) s) = docs).
Proof.
  intros s st. split.
  - intros [d|docs]; split; reflexivity.
  - intro docs. split; reflexivity.
Qed.

(** C4, the claim as worded fails: after a search for [abc] that returns
    the contract alone, the grid shows the contract and [documents] still
    holds the three documents loaded before. *)
Lemma search_leaves_collection :
  let s := run [Typed "abc"; Wait 500;
                Settled 0 (success 200 (JArray [contract]))] dashboard in
  grid s = [contract]
  /\ documents s = JArray [report; contract; memo]
  /\ documents s <> JArray [contract].
Proof.
  cbv zeta. split; [reflexivity | split; [reflexivity | discriminate]].
Qed.

(** * What [apiCall] hands to its caller *)

(** C3, as amended: [apiCall] resolves with the response object itself
    whenever the response is ok, parsed or not; it rejects with the error
    of [fetch] unchanged on a transport failure, with the session-expired
    [Error] after [logout()] on 401, and on any other status with an [Error]
    whose message is [Request failed] when the body does not parse, the
    body's [detail] when that is a non-empty string, the text [detail]
    converts to when it is another truthy value ([[object Object]] for the
    list of a validation error), and [HTTP <status>] when [detail] is
    missing, [null], [false], [0] or the empty string. *)
Theorem apiCall_outcomes :
  forall (s : State) (st : N),
    st <> 401%N ->
    let refused body :=
      apiCall_settle (Responded {| ok := false; status := st; json := body |}) s in
    let generic := (s, Threw (Error ("HTTP " ++ Js.decimal st))) in
    (forall e, apiCall_settle (Rejected e) s = (s, Threw (Host e)))
    /\ (forall st' body,
          apiCall_settle (Responded {| ok := true; status := st'; json := body |}) s
          = (s, Resolved {| ok := true; status := st'; json := body |}))
    /\ (forall body,
          apiCall_settle (unauthorized body) s
          = (logout s, Threw (Error "Session expired. Please login again.")))
    /\ (forall e, refused (inl e) = (s, Threw (Error "Request failed")))
    /\ (forall reason, reason <> "" ->
          refused (inr (JObject (Some (JsString reason))))
          = (s, Threw (Error reason)))
    /\ (forall v, ToBoolean v = true ->
          refused (inr (JObject (Some v))) = (s, Threw (Error (ToString v))))
    /\ refused (inr (JObject (Some (JsArray [JsObject; JsObject]))))
       = (s, Threw (Error "[object Object],[object Object]"))
    /\ (forall v, v = JsNull \/ v = JsBool false \/ v = JsNumber 0 \/ v = JsString "" ->
          refused (inr (JObject (Some v))) = generic)
    /\ refused (inr (JObject None)) = generic
    /\ (forall docs, refused (inr (JArray docs)) = generic).
Proof.
  intros s st Hst. apply N.eqb_neq in Hst. cbv zeta.
  unfold apiCall_settle. simpl. rewrite Hst.
  split; [reflexivity|]. split; [reflexivity|]. split; [reflexivity|].
  split; [reflexivity|]. split.
  { intros reason Hr. apply truthy_spec in Hr. unfold stringOr. simpl.
    rewrite Hr. reflexivity. }
  split.
  { intros v Hv. unfold stringOr. simpl. rewrite Hv. reflexivity. }
  split; [reflexivity|]. split.
  { intros v [-> | [-> | [-> | ->]]]; reflexivity. }
  split; reflexivity.
Qed.

Lemma apiCall_outcomes_witness :
  500%N <> 401%N
  /\ apiCall_settle
       (Responded {| ok := false; status := 500;
                     json := inl {| host_message := "Unexpected token <" |} |})
       dashboard
     = (dashboard, Threw (Error "Request failed"))
  /\ apiCall_settle
       (Responded {| ok := false; status := 500;
                     json := inr (JObject (Some (JsString "Index not built"))) |})
       dashboard
     = (dashboard, Threw (Error "Index not built"))
  /\ apiCall_settle
       (Responded {| ok := false; status := 500;
                     json := inr (JObject (Some (JsArray [JsObject]))) |})
       dashboard
     = (dashboard, Threw (Error "[object Object]"))
  /\ apiCall_settle
       (Responded {| ok := false; status := 500; json := inr (JObject None) |})
       dashboard
     = (dashboard, Threw (Error "HTTP 500")).
Proof.
  assert (H : 500%N <> 401%N) by discriminate.
  split; [exact H|].
  destruct (apiCall_outcomes dashboard 500 H)
    as [_ [_ [_ [H1 [H2 [H3 [_ [_ [H4 _]]]]]]]]].
  split; [apply H1|].
  split; [apply (H2 "Index not built"); discriminate|].
  split; [apply (H3 (JsArray [JsObject])); reflexivity | apply H4].
Defined.

(** C3, the claim as worded fails: on a 200 whose body is not JSON,
    [apiCall] neither raises an error nor returns a payload; the caller gets
    the response object, and meets the parse failure itself. *)
Lemma apiCall_resolves_with_raw_response :
  apiCall_settle
    (Responded {| ok := true; status := 200;
                  json := inl {| host_message := "Unexpected token <" |} |})
    dashboard
  = (dashboard,
     Resolved {| ok := true; status := 200;
                 json := inl {| host_message := "Unexpected token <" |} |}).
Proof. reflexivity. Qed.

(** * 401 outside [apiCall] *)

Lemma uploadLoop_session files : forall s,
  accessToken (uploadLoop files s) = accessToken s
  /\ currentUser (uploadLoop files s) = currentUser s
  /\ localStorage (uploadLoop files s) = localStorage s
  /\ page (uploadLoop files s) = page s
  /\ documents (uploadLoop files s) = documents s.
Proof.
  induction files as [|f rest IH]; intro s; simpl.
  - repeat split.
  - destruct (allowed f); simpl.
    + repeat split.
    + apply (IH (alert (unsupportedMessage f) s)).
Qed.

(** C2, where the code departs from the claim: a 401 answered to an upload
    or to a download leaves the token, the user, the persisted token and the
    page as they were, and the download reports its generic failure; the
    same response through [apiCall] logs the user out. *)
Theorem upload_download_keep_session_on_401 :
  forall s : State,
    (forall docId body,
        downloadDocument_resume docId (unauthorized body) s
        = alert "Download failed. Please try again." s)
    /\ (forall file rest body,
          let s' := handleFileUpload_resume file rest (unauthorized body) s in
          accessToken s' = accessToken s
          /\ currentUser s' = currentUser s
          /\ localStorage s' = localStorage s
          /\ page s' = page s)
    /\ (forall body, fst (apiCall_settle (unauthorized body) s) = logout s).
Proof.
  intro s. split; [|split].
  - reflexivity.
  - intros file rest body. cbv zeta. unfold handleFileUpload_resume.
    destruct (uploadSingleFile_settle (unauthorized body)) as [x|].
    + destruct (uploadLoop_session rest (alert (uploadFailedMessage file x) s))
        as [H1 [H2 [H3 [H4 _]]]].
      repeat split; assumption.
    + destruct (uploadLoop_session rest s) as [H1 [H2 [H3 [H4 _]]]].
      repeat split; assumption.
  - reflexivity.
Qed.

(** On the dashboard: a reload of the list meets a 401.  The session is
    torn down, and the alert is the one of every failed reload. *)
Example reload_401_on_dashboard :
  let s := loadDocuments_resume
             (unauthorized (inr (JObject (Some (JsString "Could not validate credentials")))))
             dashboard in
  accessToken s = None
  /\ localStorage s = None
  /\ page s = LoginPage
  /\ alertsOf (log s) = ["Failed to load documents. Please refresh the page."].
Proof. cbv zeta. repeat split. Qed.

(** On the dashboard: the download of [d1] meets a 401. *)
Example download_401_on_dashboard :
  let s := run [DownloadClicked "d1";
                Settled 0 (unauthorized (inr (JObject (Some (JsString "Could not validate credentials")))))]
             dashboard in
  accessToken s = Some "tok123"
  /\ localStorage s = Some "tok123"
  /\ page s = DashboardPage
  /\ alertsOf (log s) = ["Download failed. Please try again."].
Proof. cbv zeta. repeat split. Qed.

(** On the dashboard: the upload of one text file meets a 401. *)
Example upload_401_on_dashboard :
  let s := run [FilesChosen [ {| name := "notes.txt"; type := "text/plain" |} ];
                Settled 0 (unauthorized (inr (JObject (Some (JsString "Could not validate credentials")))))]
             dashboard in
  accessToken s = Some "tok123"
  /\ localStorage s = Some "tok123"
  /\ page s = DashboardPage
  /\ alertsOf (log s)
     = ["Failed to upload notes.txt: Could not validate credentials"].
Proof. cbv zeta. repeat split. Qed.

(** * Requests in flight *)

Lemma pending_fresh k : forall l n,
  Forall (fun p => fst p < n) l ->
  pending n (l ++ [(n, k)]) = Some k.
Proof.
  induction l as [|[i k'] l IH]; intros n H; simpl.
  - rewrite Nat.eqb_refl. reflexivity.
  - inversion H as [|? ? Hi Hl]; subst. simpl in Hi.
    destruct (Nat.eqb_spec i n); [lia | apply IH; assumption].
Qed.

Lemma forget_fresh k : forall l n,
  Forall (fun p => fst p < n) l ->
  forget n (l ++ [(n, k)]) = l.
Proof.
  induction l as [|[i k'] l IH]; intros n H; simpl.
  - rewrite Nat.eqb_refl. reflexivity.
  - inversion H as [|? ? Hi Hl]; subst. simpl in Hi.
    destruct (Nat.eqb_spec i n); [lia|]. simpl. f_equal.
    apply IH; assumption.
Qed.

Lemma pending_forget_other l : forall i j,
  i <> j -> pending i (forget j l) = pending i l.
Proof.
  induction l as [|[n k] l IH]; intros i j Hij; simpl; [reflexivity|].
  destruct (Nat.eqb_spec n j) as [->|Hn]; simpl.
  - destruct (Nat.eqb_spec j i); [congruence | apply IH; assumption].
  - rewrite IH by assumption. reflexivity.
Qed.

(** * Search responses out of order *)

(** C1, as amended: no dispatch number is kept or compared.  Each
    successful search response is rendered when it arrives: with two
    searches in flight, the later one answered first, the grid shows the
    later result until the earlier response arrives and the earlier result
    from then on. *)
Theorem search_responses_render_on_arrival :
  forall (s : State) (id1 id2 : nat) (st1 st2 : N) (docs1 docs2 : list Document),
    id1 < id2 ->
    pending id1 (inflight s) = Some KSearch ->
    pending id2 (inflight s) = Some KSearch ->
    grid (run [Settled id2 (success st2 (JArray docs2))] s) = docs2
    /\ grid (run [Settled id2 (success st2 (JArray docs2));
                  Settled id1 (success st1 (JArray docs1))] s) = docs1.
Proof.
  intros s id1 id2 st1 st2 docs1 docs2 Hlt H1 H2.
  unfold run. simpl. rewrite H2. simpl. split; [reflexivity|].
  rewrite pending_forget_other by lia. rewrite H1. reflexivity.
Qed.

Lemma search_responses_render_on_arrival_witness :
  0 < 1
  /\ pending 0 (inflight twoSearches) = Some KSearch
  /\ pending 1 (inflight twoSearches) = Some KSearch
  /\ grid (run [Settled 1 (success 200 (JArray [contract]))] twoSearches)
     = [contract]
  /\ grid (run [Settled 1 (success 200 (JArray [contract]));
                Settled 0 (success 200 (JArray [report]))] twoSearches)
     = [report].
Proof.
  assert (H : 0 < 1) by lia.
  split; [exact H|]. split; [reflexivity|]. split; [reflexivity|].
  exact (search_responses_render_on_arrival twoSearches 0 1 200 200
           [report] [contract] H eq_refl eq_refl).
Defined.

(** C1, the claim as worded fails: search 1 was dispatched after search 0
    and is answered first; when the answer to search 0 arrives it replaces
    the newer result in the grid. *)
Lemma stale_search_response_overwrites :
  requestsOf (log twoSearches)
  = [ {| endpoint := SearchEndpoint "abc"; method := GET;
         contentType := Some "application/json";
         authorization := Some "Bearer tok123"; formFile := None |};
      {| endpoint := SearchEndpoint "abcd"; method := GET;
         contentType := Some "application/json";
         authorization := Some "Bearer tok123"; formFile := None |} ]
  /\ grid (run [Settled 1 (success 200 (JArray [contract]))] twoSearches)
     = [contract]
  /\ grid (run [Settled 1 (success 200 (JArray [contract]));
                Settled 0 (success 200 (JArray [report]))] twoSearches)
     = [report]
  /\ [report] <> [contract].
Proof.
  split; [reflexivity|]. split; [reflexivity|]. split; [reflexivity|].
  discriminate.
Qed.

(** * The settled query *)

Lemma WellFormed_fresh k s :
  WellFormed s -> pending (nextRequest s) (inflight s ++ [(nextRequest s, k)])%list = Some k.
Proof. intro H. apply pending_fresh. exact H. Qed.

(** C7: when the debounce timer runs, the trimmed content of the search
    field decides.  Three characters or more: one search request leaves, the
    grid stays until the answer comes, and a successful answer becomes the
    grid while [documents] keeps the full list.  Empty: the grid shows
    [documents] again and nothing is sent.  One or two characters: nothing
    changes at all. *)
Theorem settled_query_cases :
  forall s : State,
    WellFormed s ->
    let searchTerm := Js.trim (searchInput s) in
    (3 <= String.length searchTerm ->
       (exists r, log (searchCallback s) = (log s ++ [Sent (nextRequest s) r])%list
                  /\ endpoint r = SearchEndpoint searchTerm)
       /\ grid (searchCallback s) = grid s
       /\ forall st docs,
            let s' := step (searchCallback s)
                        (Settled (nextRequest s) (success st (JArray docs))) in
            grid s' = docs /\ documents s' = documents s)
    /\ (String.length searchTerm = 0 ->
          log (searchCallback s) = log s
          /\ inflight (searchCallback s) = inflight s
          /\ forall docs, documents s = JArray docs ->
                          searchCallback s = set_grid docs s)
    /\ (1 <= String.length searchTerm <= 2 -> searchCallback s = s).
Proof.
  intros s WF searchTerm. unfold searchCallback. fold searchTerm.
  split; [|split].
  - intro H. apply Nat.leb_le in H. rewrite H.
    split; [|split].
    + eexists. split; reflexivity.
    + reflexivity.
    + intros st docs. cbv zeta. unfold step.
      assert (P : pending (nextRequest s)
                    (inflight (performSemanticSearch searchTerm s)) = Some KSearch)
        by (apply WellFormed_fresh; exact WF).
      rewrite P. split; reflexivity.
  - intro H. rewrite H. simpl.
    destruct (documents s) as [d|docs] eqn:E; simpl.
    + repeat split. intros docs E'. discriminate.
    + repeat split. intros docs' E'. injection E' as <-. reflexivity.
  - intros [H1 H2].
    destruct (Nat.leb_spec 3 (String.length searchTerm)); [lia|].
    destruct (Nat.eqb_spec (String.length searchTerm) 0); [lia|].
    reflexivity.
Qed.

Lemma settled_query_cases_witness :
  WellFormed (set_searchInput "  contract " dashboard)
  /\ (exists r,
        log (searchCallback (set_searchInput "  contract " dashboard))
        = [Sent 0 r]
        /\ endpoint r = SearchEndpoint "contract").
Proof.
  assert (WF : WellFormed (set_searchInput "  contract " dashboard))
    by constructor.
  split; [exact WF|].
  destruct (settled_query_cases _ WF) as [H _].
  assert (L : 3 <= String.length (Js.trim (searchInput (set_searchInput "  contract " dashboard))))
    by (simpl; lia).
  exact (proj1 (H L)).
Defined.

(** * Debounce *)

Lemma Tracked_cleared l o :
  (forall p : nat * Z, In p l -> o = Some (fst p)) ->
  match o with
  | None => l
  | Some i => filter (fun p => negb (Nat.eqb (fst p) i)) l
  end = [].
Proof.
  intro H. destruct o as [i|].
  - induction l as [|p l IH]; simpl; [reflexivity|].
    assert (E : Some i = Some (fst p)) by (apply H; left; reflexivity).
    injection E as ->. rewrite Nat.eqb_refl. simpl.
    apply IH. intros q Hq. apply H. right. exact Hq.
  - destruct l as [|p l]; [reflexivity|].
    specialize (H p (or_introl eq_refl)). discriminate.
Qed.

Lemma key_arms_timer value s :
  Tracked s ->
  step s (Typed value) = armed value (now s) (now s + 500) (nextTimer s) s.
Proof.
  intro H. apply Tracked_cleared in H.
  destruct s; unfold step, onSearchInput, clearTimeout, setTimeout, armed; simpl in *.
  destruct searchTimeout0; simpl; rewrite H; reflexivity.
Qed.

Lemma short_pause value t due n pause s :
  (t + Z.max 0 pause < due)%Z ->
  step (armed value t due n s) (Wait pause)
  = armed value (t + Z.max 0 pause) due n s.
Proof.
  intro H. unfold step, elapse, armed. simpl.
  destruct (Z.leb_spec due (t + Z.max 0 pause)); [lia|]. reflexivity.
Qed.

Lemma long_pause value t due n pause s :
  (due <= t + Z.max 0 pause)%Z ->
  step (armed value t due n s) (Wait pause)
  = searchCallback (quiescent value (t + Z.max 0 pause) n s).
Proof.
  intro H. unfold step, elapse, armed. simpl.
  destruct (Z.leb_spec due (t + Z.max 0 pause)); [|lia]. reflexivity.
Qed.

Lemma Tracked_armed value t due n s : Tracked (armed value t due n s).
Proof. intros p [<-|[]]. reflexivity. Qed.

Lemma quiescent_armed value t n value' t' due' n' s :
  quiescent value t n (armed value' t' due' n' s) = quiescent value t n s.
Proof. reflexivity. Qed.

Lemma debounce_runs_callback_once :
  forall (keys : list (string * Z)) (s : State) (value : string) (pause : Z),
    Tracked s ->
    Forall (fun k => (snd k < 500)%Z) keys ->
    (500 <= pause)%Z ->
    run (typing (keys ++ [(value, pause)])%list) s
    = searchCallback
        (quiescent value (now s + elapsed (keys ++ [(value, pause)]))%Z
           (nextTimer s + List.length keys) s).
Proof.
  induction keys as [|[v0 g0] keys IH]; intros s value pause HT Hk Hp.
  - change (run (typing ([] ++ [(value, pause)])%list) s)
      with (step (step s (Typed value)) (Wait pause)).
    rewrite key_arms_timer by exact HT.
    rewrite long_pause by lia.
    simpl. rewrite Z.add_0_r, Nat.add_0_r. reflexivity.
  - inversion Hk as [|? ? Hg Hk']; subst. simpl in Hg.
    change (run (typing (((v0, g0) :: keys) ++ [(value, pause)])%list) s)
      with (run (typing (keys ++ [(value, pause)])%list)
              (step (step s (Typed v0)) (Wait g0))).
    rewrite key_arms_timer by exact HT.
    rewrite short_pause by lia.
    rewrite IH; [|apply Tracked_armed|exact Hk'|exact Hp].
    rewrite quiescent_armed. f_equal.
    change (elapsed (((v0, g0) :: keys) ++ [(value, pause)])%list)
      with (Z.max 0 g0 + elapsed (keys ++ [(value, pause)])%list)%Z.
    simpl now. simpl nextTimer. simpl List.length.
    f_equal; lia.
Qed.

(** C6: every keystroke clears the pending timer and arms a new one of
    500ms.  Through any run of keystrokes less than 500ms apart no callback
    runs; once 500ms pass after the last keystroke the callback runs once,
    on the value the field holds then.  So the whole run dispatches at most
    one query: exactly one search request, for the last value trimmed, when
    that has three characters or more, and no request at all otherwise;
    the values typed before are never sent. *)
Theorem debounce_acts_on_last_value :
  forall (keys : list (string * Z)) (s : State) (value : string) (pause : Z),
    Tracked s ->
    Forall (fun k => (snd k < 500)%Z) keys ->
    (500 <= pause)%Z ->
    let final := run (typing (keys ++ [(value, pause)])%list) s in
    final
    = searchCallback
        (quiescent value (now s + elapsed (keys ++ [(value, pause)]))%Z
           (nextTimer s + List.length keys) s)
    /\ (3 <= String.length (Js.trim value) ->
        exists r,
          log final = (log s ++ [Sent (nextRequest s) r])%list
          /\ endpoint r = SearchEndpoint (Js.trim value)
          /\ method r = GET)
    /\ (String.length (Js.trim value) < 3 -> log final = log s)
    /\ timers final = [].
Proof.
  intros keys s value pause HT Hk Hp. cbv zeta.
  rewrite (debounce_runs_callback_once keys s value pause HT Hk Hp).
  split; [reflexivity|].
  unfold searchCallback. simpl searchInput.
  split; [|split].
  - intro H. apply Nat.leb_le in H. rewrite H.
    eexists. split; [reflexivity|]. split; reflexivity.
  - intro H.
    destruct (Nat.leb_spec 3 (String.length (Js.trim value))); [lia|].
    destruct (String.length (Js.trim value) =? 0)%nat; [|reflexivity].
    simpl. destruct (documents s); reflexivity.
  - destruct (3 <=? String.length (Js.trim value))%nat; [reflexivity|].
    destruct (String.length (Js.trim value) =? 0)%nat; [|reflexivity].
    simpl. destruct (documents s); reflexivity.
Qed.

(** Typing [a], [ab], [abc] within 500ms sends exactly one request, the
    search for [abc]. *)
Lemma debounce_acts_on_last_value_witness :
  Tracked dashboard
  /\ Forall (fun k => (snd k < 500)%Z) [("a", 100%Z); ("ab", 100%Z)]
  /\ (500 <= 500)%Z
  /\ log (run [Typed "a"; Wait 100; Typed "ab"; Wait 100; Typed "abc"; Wait 500]
            dashboard)
     = [Sent 0 {| endpoint := SearchEndpoint "abc"; method := GET;
                  contentType := Some "application/json";
                  authorization := Some "Bearer tok123"; formFile := None |}]
  /\ exists r,
       log (run [Typed "a"; Wait 100; Typed "ab"; Wait 100; Typed "abc"; Wait 500]
              dashboard)
       = [Sent 0 r]
       /\ endpoint r = SearchEndpoint "abc"
       /\ method r = GET.
Proof.
  assert (HT : Tracked dashboard) by (intros p []).
  assert (Hk : Forall (fun k => (snd k < 500)%Z) [("a", 100%Z); ("ab", 100%Z)])
    by (repeat constructor).
  assert (Hp : (500 <= 500)%Z) by lia.
  split; [exact HT|]. split; [exact Hk|]. split; [exact Hp|].
  split; [reflexivity|].
  assert (L : 3 <= String.length (Js.trim "abc")) by (simpl; lia).
  exact (proj1 (proj2 (debounce_acts_on_last_value [("a", 100%Z); ("ab", 100%Z)]
                         dashboard "abc" 500 HT Hk Hp)) L).
Defined.

(** * Upload batches *)



Lemma filter_isUpload_idle l n k :
  filter isUpload l = [] ->
  isUpload (n, k) = false ->
  filter isUpload (l ++ [(n, k)]) = [].
Proof.
  intros H Hk. rewrite filter_app, H. simpl. rewrite Hk. reflexivity.
Qed.

Lemma Idle_alert m s : Idle s -> Idle (alert m s).
Proof. intro H. exact H. Qed.

Lemma settleUploads_idle replies s :
  filter isUpload (inflight s) = [] -> settleUploads replies s = s.
Proof.
  intro H. destruct replies as [|fr rest]; [reflexivity|].
  simpl. unfold uploadInFlight. rewrite H. reflexivity.
Qed.

Lemma settleUploads_cons fr rest s :
  settleUploads (fr :: rest) s
  = match uploadInFlight s with
    | Some id => settleUploads rest (step s (Settled id fr))
    | None => s
    end.
Proof. reflexivity. Qed.

Lemma uploadInFlight_started file rest s :
  Idle s ->
  uploadInFlight (uploadSingleFile file (KUpload file rest) s)
  = Some (nextRequest s).
Proof.
  intros [_ H]. unfold uploadInFlight. simpl.
  rewrite filter_app, H. reflexivity.
Qed.

Lemma Idle_uploaded file s : Idle s -> Idle (uploaded file s).
Proof.
  intros [WF H]. split; [|exact H].
  unfold WellFormed in *. simpl.
  eapply Forall_impl; [|exact WF]. simpl. intros p Hp. lia.
Qed.

Lemma upload_settled file rest fr s :
  Idle s ->
  step (uploadSingleFile file (KUpload file rest) s) (Settled (nextRequest s) fr)
  = handleFileUpload_resume file rest fr (uploaded file s).
Proof.
  intros [WF H]. unfold step.
  assert (P : pending (nextRequest s)
                (inflight (uploadSingleFile file (KUpload file rest) s))
              = Some (KUpload file rest))
    by (apply WellFormed_fresh; exact WF).
  rewrite P. unfold resume. f_equal.
  unfold uploadSingleFile, fetch, uploaded. simpl.
  rewrite (forget_fresh (KUpload file rest) (inflight s) (nextRequest s) WF).
  destruct s; reflexivity.
Qed.







(** The same three files when the backend refuses the first upload with a
    reason: the third is still sent, and the two alerts name the first file
    with the reason and the second as unsupported. *)
Example batch_with_a_refused_upload :
  let s := settleUploads
             [ Responded {| ok := false; status := 413;
                            json := inr (JObject (Some (JsString "File too large"))) |};
               success 200 (JObject None) ]
             (handleFileUpload [file1; file2; file3] dashboard) in
  uploadsOf (log s) = [file1; file3]
  /\ alertsOf (log s)
     = [ "Failed to upload report.pdf: File too large";
         "File " ++ String (ascii_of_nat 34) ""
         ++ "setup.exe" ++ String (ascii_of_nat 34) ""
         ++ " is not supported. Please upload PDF, DOCX, or TXT files only." ].
Proof. cbv zeta. split; reflexivity. Qed.

(** * Invariants of the event loop *)

Lemma WellFormed_fetch r k s : WellFormed s -> WellFormed (fetch r k s).
Proof.
  unfold WellFormed. simpl. intro H. apply Forall_app. split.
  - eapply Forall_impl; [|exact H]. simpl. intros p Hp. lia.
  - repeat constructor.
Qed.

Lemma WellFormed_forget id s :
  WellFormed s -> WellFormed (set_inflight (forget id (inflight s)) s).
Proof.
  unfold WellFormed, forget. simpl. intro H.
  apply Forall_forall. intros p Hp. apply filter_In in Hp.
  rewrite Forall_forall in H. apply H. apply Hp.
Qed.

Lemma WellFormed_uploadLoop files : forall s,
  WellFormed s -> WellFormed (uploadLoop files s).
Proof.
  induction files as [|f rest IH]; intros s H; simpl.
  - change (WellFormed (loadDocuments s)).
    unfold loadDocuments, apiCall. apply WellFormed_fetch. exact H.
  - destruct (allowed f); simpl.
    + apply WellFormed_fetch. exact H.
    + apply IH. exact H.
Qed.

Lemma WellFormed_searchCallback s :
  WellFormed s -> WellFormed (searchCallback s).
Proof.
  intro H. unfold searchCallback.
  destruct (3 <=? String.length (Js.trim (searchInput s)))%nat.
  - apply WellFormed_fetch. exact H.
  - destruct (String.length (Js.trim (searchInput s)) =? 0)%nat; [|exact H].
    destruct (documents s); exact H.
Qed.

Lemma WellFormed_callbacks {A} (due : list A) : forall s,
  WellFormed s -> WellFormed (fold_left (fun st _ => searchCallback st) due s).
Proof.
  induction due as [|d due IH]; intros s H; simpl; [exact H|].
  apply IH. apply WellFormed_searchCallback. exact H.
Qed.

Lemma WellFormed_resume k fr s : WellFormed s -> WellFormed (resume k fr s).
Proof.
  intro H. destruct k as [| | |docId|file rest]; simpl.
  - unfold loadDocuments_resume.
    destruct fr as [e|[[] st [e|[d|l]]]]; simpl;
      try destruct (st =? 401)%N; exact H.
  - unfold performSemanticSearch_resume.
    destruct fr as [e|[[] st [e|[d|l]]]]; simpl;
      try destruct (st =? 401)%N; exact H.
  - unfold showDocumentDetail_resume.
    destruct fr as [e|[[] st [e|[d|l]]]]; simpl;
      try destruct (st =? 401)%N; exact H.
  - unfold downloadDocument_resume.
    destruct fr as [e|[[] st body]]; exact H.
  - unfold handleFileUpload_resume.
    destruct (uploadSingleFile_settle fr); apply WellFormed_uploadLoop; exact H.
Qed.

Lemma WellFormed_filterDocuments s :
  WellFormed s -> WellFormed (uncaught s (filterDocuments s)).
Proof.
  intro H. rewrite filterDocuments_eq. destruct (documents s); exact H.
Qed.

(** Identifiers in flight stay older than the next one to hand out. *)
Lemma step_WellFormed s e : WellFormed s -> WellFormed (step s e).
Proof.
  intro H. destruct e; simpl.
  - unfold onSearchInput, clearTimeout. simpl.
    destruct (searchTimeout s); exact H.
  - apply WellFormed_callbacks. exact H.
  - destruct (pending id (inflight s)); [|exact H].
    apply WellFormed_resume, WellFormed_forget. exact H.
  - apply (WellFormed_filterDocuments (set_categoryFilter value s)). exact H.
  - apply (WellFormed_filterDocuments (set_authorFilter value s)). exact H.
  - apply (WellFormed_filterDocuments (set_dateFilter value s)). exact H.
  - destruct files; [exact H|].
    apply (WellFormed_uploadLoop (f :: files) (set_fileInput (f :: files) s)).
    exact H.
  - destruct files; [exact H|]. apply WellFormed_uploadLoop. exact H.
  - apply WellFormed_fetch. exact H.
  - apply WellFormed_fetch. exact H.
  - exact H.
  - exact H.
Qed.

Lemma SameTimers_uploadLoop files : forall s, SameTimers s (uploadLoop files s).
Proof.
  induction files as [|f rest IH]; intro s; simpl.
  - split; reflexivity.
  - destruct (allowed f); simpl; [split; reflexivity|].
    apply (IH (alert (unsupportedMessage f) s)).
Qed.

Lemma SameTimers_searchCallback s : SameTimers s (searchCallback s).
Proof.
  unfold searchCallback.
  destruct (3 <=? String.length (Js.trim (searchInput s)))%nat; [split; reflexivity|].
  destruct (String.length (Js.trim (searchInput s)) =? 0)%nat; [|split; reflexivity].
  destruct (documents s); split; reflexivity.
Qed.

Lemma SameTimers_callbacks {A} (due : list A) : forall s,
  SameTimers s (fold_left (fun st _ => searchCallback st) due s).
Proof.
  induction due as [|d due IH]; intro s; simpl; [split; reflexivity|].
  destruct (IH (searchCallback s)) as [H1 H2].
  destruct (SameTimers_searchCallback s) as [H3 H4].
  split; congruence.
Qed.

Lemma SameTimers_resume k fr s : SameTimers s (resume k fr s).
Proof.
  destruct k as [| | |docId|file rest]; simpl.
  - unfold loadDocuments_resume.
    destruct fr as [e|[[] st [e|[d|l]]]]; simpl;
      try destruct (st =? 401)%N; split; reflexivity.
  - unfold performSemanticSearch_resume.
    destruct fr as [e|[[] st [e|[d|l]]]]; simpl;
      try destruct (st =? 401)%N; split; reflexivity.
  - unfold showDocumentDetail_resume.
    destruct fr as [e|[[] st [e|[d|l]]]]; simpl;
      try destruct (st =? 401)%N; split; reflexivity.
  - unfold downloadDocument_resume.
    destruct fr as [e|[[] st body]]; split; reflexivity.
  - unfold handleFileUpload_resume.
    destruct (uploadSingleFile_settle fr).
    + apply (SameTimers_uploadLoop rest (alert (uploadFailedMessage file e) s)).
    + apply SameTimers_uploadLoop.
Qed.

Lemma Tracked_same s s' : SameTimers s s' -> Tracked s -> Tracked s'.
Proof. intros [H1 H2] H p Hp. rewrite H1 in Hp. rewrite H2. apply H. exact Hp. Qed.

(** Every pending timer stays the one [searchTimeout] names. *)
Lemma step_Tracked s e : Tracked s -> Tracked (step s e).
Proof.
  intro H. destruct e.
  - rewrite key_arms_timer by exact H. apply Tracked_armed.
  - simpl. unfold elapse.
    eapply Tracked_same; [apply SameTimers_callbacks|].
    intros p Hp. simpl in Hp. apply filter_In in Hp. apply H. apply Hp.
  - simpl. destruct (pending id (inflight s)); [|exact H].
    eapply Tracked_same; [apply SameTimers_resume | exact H].
  - simpl. rewrite filterDocuments_eq. simpl.
    destruct (documents s); exact H.
  - simpl. rewrite filterDocuments_eq. simpl.
    destruct (documents s); exact H.
  - simpl. rewrite filterDocuments_eq. simpl.
    destruct (documents s); exact H.
  - simpl. destruct files; [exact H|].
    eapply Tracked_same; [apply (SameTimers_uploadLoop (f :: files))|exact H].
  - simpl. destruct files; [exact H|].
    eapply Tracked_same; [apply (SameTimers_uploadLoop (f :: files))|exact H].
  - exact H.
  - exact H.
  - exact H.
  - exact H.
Qed.

Lemma run_invariants events : forall s,
  WellFormed s -> Tracked s ->
  WellFormed (run events s) /\ Tracked (run events s).
Proof.
  induction events as [|e events IH]; intros s H1 H2; simpl; [split; assumption|].
  apply IH; [apply step_WellFormed | apply step_Tracked]; assumption.
Qed.

(** * Further properties: derived filter options *)

Lemma mem_In x l : Js.mem x l = true <-> In x l.
Proof.
  unfold Js.mem. rewrite existsb_exists. split.
  - intros [y [Hy E]]. apply String.eqb_eq in E. subst. exact Hy.
  - intro H. exists x. split; [exact H | apply String.eqb_refl].
Qed.

Lemma distinct_In xs : forall seen x,
  In x (Js.distinct seen xs) <-> In x xs /\ ~ In x seen.
Proof.
  induction xs as [|a xs IH]; intros seen x; simpl.
  - tauto.
  - destruct (Js.mem a seen) eqn:M.
    + apply mem_In in M. rewrite IH. split.
      * intros [H1 H2]. tauto.
      * intros [[->|H1] H2]; [contradiction | tauto].
    + assert (Ha : ~ In a seen).
      { intro H. apply mem_In in H. congruence. }
      simpl. rewrite IH. simpl. split.
      * intros [->|[H1 H2]]; [tauto | tauto].
      * intros [[->|H1] H2]; [tauto|].
        destruct (string_dec a x) as [->|N]; [tauto | right; tauto].
Qed.

Lemma distinct_NoDup xs : forall seen, NoDup (Js.distinct seen xs).
Proof.
  induction xs as [|a xs IH]; intro seen; simpl; [constructor|].
  destruct (Js.mem a seen); [apply IH|].
  constructor; [|apply IH].
  rewrite distinct_In. simpl. tauto.
Qed.

Lemma categoriesOf_spec docs :
  NoDup (categoriesOf docs)
  /\ forall c, In c (categoriesOf docs) <-> exists d, In d docs /\ category d = c.
Proof.
  unfold categoriesOf. split; [apply distinct_NoDup|].
  intro c. rewrite distinct_In, in_map_iff. simpl. split.
  - intros [[d [H1 H2]] _]. exists d. tauto.
  - intros [d [H1 H2]]. split; [exists d; tauto | tauto].
Qed.

Lemma authorsOf_spec docs :
  NoDup (authorsOf docs)
  /\ forall a, In a (authorsOf docs)
               <-> a <> "" /\ exists d, In d docs /\ author d = Some a.
Proof.
  unfold authorsOf. split; [apply distinct_NoDup|].
  intro a. rewrite distinct_In, in_flat_map. simpl. split.
  - intros [[d [H1 H2]] _]. destruct (author d) as [a'|] eqn:A; [|destruct H2].
    destruct (Js.truthy a') eqn:T; [|destruct H2].
    destruct H2 as [->|[]]. split.
    + apply truthy_spec. exact T.
    + exists d. tauto.
  - intros [Ha [d [H1 H2]]]. split; [|tauto].
    exists d. split; [exact H1|]. rewrite H2.
    apply truthy_spec in Ha. rewrite Ha. left. reflexivity.
Qed.

(** X1: on a loaded collection [updateFilters] assigns to the category
    drop-down the fixed first option followed by one [<option>] per category
    that occurs among the documents, each category once, its lower-cased
    form as the value and itself as the label; and to the author drop-down
    the fixed first option followed by one [<option>] per non-empty author,
    each once.  The strings go into the markup unescaped. *)
Theorem updateFilters_options :
  forall (s : State) (docs : list Document),
    documents s = JArray docs ->
    let q := String (ascii_of_nat 34) "" in
    exists (s' : State) (categories authors : list string),
      updateFilters s = Some s'
      /\ categoryOptions s'
         = "<option value=" ++ q ++ q ++ ">All Categories</option>"
           ++ join ""
                (map (fun cat => "<option value=" ++ q ++ Js.toLowerCase cat ++ q
                                 ++ ">" ++ cat ++ "</option>") categories)
      /\ NoDup categories
      /\ (forall c, In c categories <-> exists d, In d docs /\ category d = c)
      /\ authorOptions s'
         = "<option value=" ++ q ++ q ++ ">All Authors</option>"
           ++ join ""
                (map (fun a => "<option value=" ++ q ++ a ++ q
                               ++ ">" ++ a ++ "</option>") authors)
      /\ NoDup authors
      /\ (forall a, In a authors
                    <-> a <> "" /\ exists d, In d docs /\ author d = Some a).
Proof.
  intros s docs E. cbv zeta. unfold updateFilters. rewrite E.
  eexists. exists (categoriesOf docs), (authorsOf docs).
  split; [reflexivity|].
  destruct (categoriesOf_spec docs) as [C1 C2].
  destruct (authorsOf_spec docs) as [A1 A2].
  split; [reflexivity|]. split; [exact C1|]. split; [exact C2|].
  split; [reflexivity|]. split; [exact A1 | exact A2].
Qed.

Lemma updateFilters_options_witness :
  documents dashboard = JArray [report; contract; memo]
  /\ exists s',
       updateFilters dashboard = Some s'
       /\ categoryOptions s'
          = "<option value=" ++ String (ascii_of_nat 34) "" ++ String (ascii_of_nat 34) "" ++ ">All Categories</option>"
            ++ "<option value=" ++ String (ascii_of_nat 34) "" ++ "finance" ++ String (ascii_of_nat 34) "" ++ ">Finance</option>"
            ++ "<option value=" ++ String (ascii_of_nat 34) "" ++ "legal" ++ String (ascii_of_nat 34) "" ++ ">Legal</option>"
            ++ "<option value=" ++ String (ascii_of_nat 34) "" ++ "hr" ++ String (ascii_of_nat 34) "" ++ ">HR</option>"
       /\ authorOptions s'
          = "<option value=" ++ String (ascii_of_nat 34) "" ++ String (ascii_of_nat 34) "" ++ ">All Authors</option>"
            ++ "<option value=" ++ String (ascii_of_nat 34) "" ++ "Ann Lee" ++ String (ascii_of_nat 34) "" ++ ">Ann Lee</option>"
            ++ "<option value=" ++ String (ascii_of_nat 34) "" ++ "Bob Ray" ++ String (ascii_of_nat 34) "" ++ ">Bob Ray</option>".
Proof.
  split; [reflexivity|].
  destruct (updateFilters_options dashboard [report; contract; memo] eq_refl)
    as [s' [categories [authors [U _]]]].
  exists s'. split; [exact U|].
  injection U as <-. split; reflexivity.
Defined.

(** * Further properties: the debounce timer *)

Lemma Debounced_Tracked s : Debounced s -> Tracked s.
Proof.
  intros [H|[id [due [H1 H2]]]] p Hp; rewrite ?H, ?H1 in Hp.
  - destruct Hp.
  - destruct Hp as [<-|[]]. exact H2.
Qed.

Lemma Debounced_same s s' : SameTimers s s' -> Debounced s -> Debounced s'.
Proof.
  intros [H1 H2] [H|[id [due [H3 H4]]]].
  - left. congruence.
  - right. exists id, due. split; congruence.
Qed.

Lemma step_Debounced s e : Debounced s -> Debounced (step s e).
Proof.
  intro H. destruct e.
  - rewrite key_arms_timer by (apply Debounced_Tracked; exact H).
    right. eexists. eexists. split; reflexivity.
  - simpl. unfold elapse.
    eapply Debounced_same; [apply SameTimers_callbacks|].
    destruct H as [H|[id [due [H1 H2]]]].
    + left. simpl. rewrite H. reflexivity.
    + simpl. unfold Debounced. simpl. rewrite H1. simpl.
      destruct (due <=? now s + Z.max 0 ms)%Z; simpl.
      * left. reflexivity.
      * right. exists id, due. split; [reflexivity | exact H2].
  - simpl. destruct (pending id (inflight s)); [|exact H].
    eapply Debounced_same; [apply SameTimers_resume | exact H].
  - simpl. rewrite filterDocuments_eq. simpl. destruct (documents s); exact H.
  - simpl. rewrite filterDocuments_eq. simpl. destruct (documents s); exact H.
  - simpl. rewrite filterDocuments_eq. simpl. destruct (documents s); exact H.
  - simpl. destruct files; [exact H|].
    eapply Debounced_same; [apply (SameTimers_uploadLoop (f :: files))|exact H].
  - simpl. destruct files; [exact H|].
    eapply Debounced_same; [apply (SameTimers_uploadLoop (f :: files))|exact H].
  - exact H.
  - exact H.
  - exact H.
  - exact H.
Qed.

Lemma run_Debounced events : forall s, Debounced s -> Debounced (run events s).
Proof.
  induction events as [|e events IH]; intros s H; simpl; [exact H|].
  apply IH, step_Debounced, H.
Qed.

(** X2: from a page with no timer pending, whatever the user types, clicks
    or uploads and whatever the backend answers, at most one debounce timer
    is pending at any time, and it is the one [searchTimeout] holds. *)
Theorem at_most_one_timer_pending :
  forall (events : list Event) (s : State),
    timers s = [] ->
    List.length (timers (run events s)) <= 1
    /\ forall p, In p (timers (run events s))
                 -> searchTimeout (run events s) = Some (fst p).
Proof.
  intros events s H.
  assert (D : Debounced (run events s)) by (apply run_Debounced; left; exact H).
  split.
  - destruct D as [D|[id [due [D _]]]]; rewrite D; simpl; lia.
  - apply Debounced_Tracked. exact D.
Qed.

Lemma at_most_one_timer_pending_witness :
  timers dashboard = []
  /\ List.length
       (timers (run [Typed "a"; Wait 100; Typed "ab"; DateChanged "week";
                     Wait 100; Typed "abc"] dashboard)) <= 1.
Proof.
  split; [reflexivity|].
  exact (proj1 (at_most_one_timer_pending
                  [Typed "a"; Wait 100; Typed "ab"; DateChanged "week";
                   Wait 100; Typed "abc"] dashboard eq_refl)).
Defined.

(** * Further properties: the end of an upload batch *)

Lemma reloadsOf_app l l' : reloadsOf (l ++ l') = (reloadsOf l ++ reloadsOf l')%list.
Proof.
  unfold reloadsOf, requestsOf. rewrite flat_map_app. apply filter_app.
Qed.

Lemma uploadLoop_completed files : forall replies s,
  Idle s ->
  List.length (filter allowed files) <= List.length replies ->
  let s' := settleUploads replies (uploadLoop files s) in
  fileInput s' = []
  /\ uploadInFlight s' = None
  /\ List.length (reloadsOf (log s')) = S (List.length (reloadsOf (log s))).
Proof.
  induction files as [|file rest IH]; intros replies s HI Hlen; cbv zeta.
  - simpl uploadLoop. rewrite settleUploads_idle.
    + split; [reflexivity|]. split.
      * unfold uploadInFlight. simpl.
        rewrite filter_isUpload_idle; [reflexivity | apply HI | reflexivity].
      * simpl. rewrite reloadsOf_app, length_app. simpl. lia.
    + simpl. apply filter_isUpload_idle; [apply HI | reflexivity].
  - simpl uploadLoop. simpl filter in Hlen.
    destruct (allowed file) eqn:A; simpl negb; cbv iota.
    + destruct replies as [|fr replies]; simpl in Hlen; [lia|].
      rewrite settleUploads_cons, uploadInFlight_started by exact HI.
      rewrite upload_settled by exact HI.
      unfold handleFileUpload_resume.
      destruct (uploadSingleFile_settle fr) as [error|].
      * destruct (IH replies (alert (uploadFailedMessage file error) (uploaded file s))
                    (Idle_alert _ _ (Idle_uploaded file s HI)))
          as [F [U R]]; [lia|].
        split; [exact F|]. split; [exact U|]. rewrite R. simpl log.
        rewrite !reloadsOf_app. simpl. rewrite !app_nil_r. reflexivity.
      * destruct (IH replies (uploaded file s) (Idle_uploaded file s HI))
          as [F [U R]]; [lia|].
        split; [exact F|]. split; [exact U|]. rewrite R. simpl log.
        rewrite !reloadsOf_app. simpl. rewrite !app_nil_r. reflexivity.
    + destruct (IH replies (alert (unsupportedMessage file) s) (Idle_alert _ _ HI))
        as [F [U R]]; [exact Hlen|].
      split; [exact F|]. split; [exact U|]. rewrite R. simpl log.
      rewrite !reloadsOf_app. simpl. rewrite !app_nil_r. reflexivity.
Qed.

Lemma uploadLoop_unfinished files : forall replies s,
  Idle s ->
  List.length replies < List.length (filter allowed files) ->
  let s' := settleUploads replies (uploadLoop files s) in
  fileInput s' = fileInput s
  /\ uploadInFlight s' <> None
  /\ reloadsOf (log s') = reloadsOf (log s).
Proof.
  induction files as [|file rest IH]; intros replies s HI Hlen; cbv zeta.
  - simpl in Hlen. lia.
  - simpl uploadLoop. simpl filter in Hlen.
    destruct (allowed file) eqn:A; simpl negb; cbv iota.
    + destruct replies as [|fr replies].
      * simpl settleUploads. split; [reflexivity|]. split.
        -- rewrite uploadInFlight_started by exact HI. discriminate.
        -- simpl. rewrite reloadsOf_app. simpl. apply app_nil_r.
      * simpl in Hlen.
        rewrite settleUploads_cons, uploadInFlight_started by exact HI.
        rewrite upload_settled by exact HI.
        unfold handleFileUpload_resume.
        destruct (uploadSingleFile_settle fr) as [error|].
        -- destruct (IH replies (alert (uploadFailedMessage file error) (uploaded file s))
                       (Idle_alert _ _ (Idle_uploaded file s HI)))
             as [F [U R]]; [lia|].
           split; [exact F|]. split; [exact U|]. rewrite R. simpl log.
           rewrite !reloadsOf_app. simpl. rewrite !app_nil_r. reflexivity.
        -- destruct (IH replies (uploaded file s) (Idle_uploaded file s HI))
             as [F [U R]]; [lia|].
           split; [exact F|]. split; [exact U|]. rewrite R. simpl log.
           rewrite !reloadsOf_app. simpl. rewrite !app_nil_r. reflexivity.
    + destruct (IH replies (alert (unsupportedMessage file) s) (Idle_alert _ _ HI))
        as [F [U R]]; [exact Hlen|].
      split; [exact F|]. split; [exact U|]. rewrite R. simpl log.
      rewrite !reloadsOf_app. simpl. rewrite !app_nil_r. reflexivity.
Qed.

(** X3: a batch of at least one file ends, once every upload it started has
    its answer, with exactly one reload of the list and an empty file input,
    whether the uploads succeeded or not and even when no file was of a
    supported type; until then no reload is sent and the file input keeps
    its selection.  An empty batch does nothing at all. *)
Theorem handleFileUpload_reloads_once :
  forall (files : list File) (replies : list FetchResult) (s : State),
    WellFormed s ->
    uploadInFlight s = None ->
    let s' := settleUploads replies (handleFileUpload files s) in
    (files = [] -> s' = s)
    /\ (files <> [] ->
        List.length (filter allowed files) <= List.length replies ->
        fileInput s' = []
        /\ uploadInFlight s' = None
        /\ List.length (reloadsOf (log s')) = S (List.length (reloadsOf (log s))))
    /\ (List.length replies < List.length (filter allowed files) ->
        fileInput s' = fileInput s
        /\ uploadInFlight s' <> None
        /\ reloadsOf (log s') = reloadsOf (log s)).
Proof.
  intros files replies s WF HU.
  assert (HI : Idle s).
  { split; [exact WF|]. unfold uploadInFlight in HU.
    destruct (filter isUpload (inflight s)); [reflexivity | discriminate]. }
  cbv zeta. split; [|split].
  - intros ->. simpl. apply settleUploads_idle, HI.
  - intros Hne Hlen. destruct files as [|file rest]; [congruence|].
    apply (uploadLoop_completed (file :: rest) replies s HI Hlen).
  - intro Hlen. destruct files as [|file rest]; [simpl in Hlen; lia|].
    apply (uploadLoop_unfinished (file :: rest) replies s HI Hlen).
Qed.

Lemma handleFileUpload_reloads_once_witness :
  WellFormed dashboard
  /\ uploadInFlight dashboard = None
  /\ fileInput (settleUploads [] (handleFileUpload [file2] dashboard)) = []
  /\ List.length
       (reloadsOf (log (settleUploads [] (handleFileUpload [file2] dashboard))))
     = 1.
Proof.
  assert (WF : WellFormed dashboard) by constructor.
  assert (HU : uploadInFlight dashboard = None) by reflexivity.
  split; [exact WF|]. split; [exact HU|].
  destruct (handleFileUpload_reloads_once [file2] [] dashboard WF HU)
    as [_ [H _]].
  assert (Hne : [file2] <> []) by discriminate.
  assert (Hlen : List.length (filter allowed [file2]) <= List.length (@nil FetchResult))
    by (simpl; lia).
  destruct (H Hne Hlen) as [F [_ R]].
  split; [exact F | exact R].
Defined.

(** * Further properties: responses that arrive after logout *)

(** X4: [logout()] cancels nothing.  When the answer to a list reload that
    was in flight arrives after the logout, it fills [documents] and the
    grid again although no user and no token are left and the login page is
    shown. *)
Theorem list_response_after_logout_refills :
  forall (s : State) (id : nat) (st : N) (docs : list Document),
    pending id (inflight s) = Some KLoadDocuments ->
    let s' := run [LogoutClicked; Settled id (success st (JArray docs))] s in
    documents s' = JArray docs
    /\ grid s' = docs
    /\ accessToken s' = None
    /\ currentUser s' = None
    /\ localStorage s' = None
    /\ page s' = LoginPage.
Proof.
  intros s id st docs H. cbv zeta. unfold run. simpl.
  rewrite H. simpl. repeat split.
Qed.

Lemma list_response_after_logout_refills_witness :
  pending 0 (inflight (loadDocuments dashboard)) = Some KLoadDocuments
  /\ documents (run [LogoutClicked; Settled 0 (success 200 (JArray [memo]))]
                  (loadDocuments dashboard)) = JArray [memo]
  /\ accessToken (run [LogoutClicked; Settled 0 (success 200 (JArray [memo]))]
                    (loadDocuments dashboard)) = None.
Proof.
  split; [reflexivity|].
  destruct (list_response_after_logout_refills (loadDocuments dashboard) 0 200
              [memo] eq_refl) as [H1 [_ [H2 _]]].
  split; [exact H1 | exact H2].
Defined.

(** * Further properties: the date windows *)

Lemma grid_DateChanged s v docs :
  documents s = JArray docs ->
  grid (step s (DateChanged v)) = filter (keeps (set_dateFilter v s)) docs.
Proof.
  intro E. simpl. rewrite filterDocuments_eq. simpl. rewrite E. reflexivity.
Qed.

Lemma grid_DateChanged_object s v d :
  documents s = JObject d -> grid (step s (DateChanged v)) = grid s.
Proof.
  intro E. simpl. rewrite filterDocuments_eq. simpl. rewrite E. reflexivity.
Qed.

Lemma same_day_within_a_day o t now :
  ((t + o) / msPerDay = (now + o) / msPerDay)%Z -> (now - t < msPerDay)%Z.
Proof.
  intro H.
  assert (P : (0 < msPerDay)%Z) by reflexivity.
  pose proof (Z.div_mod (t + o) msPerDay ltac:(lia)) as E1.
  pose proof (Z.mod_pos_bound (t + o) msPerDay P) as B1.
  pose proof (Z.div_mod (now + o) msPerDay ltac:(lia)) as E2.
  pose proof (Z.mod_pos_bound (now + o) msPerDay P) as B2.
  rewrite H in E1. lia.
Qed.

(** X5: the date windows are nested.  Every document shown under [week] is
    shown under [month]; and where the local time offset is the same at the
    upload as now, every document shown under [today] is shown under
    [week]. *)
Theorem date_windows_nested :
  forall (s : State) (d : Document),
    (In d (grid (step s (DateChanged "week")))
     -> In d (grid (step s (DateChanged "month"))))
    /\ ((forall t, upload_date d = Some t -> timeZone s t = timeZone s (now s)) ->
        In d (grid (step s (DateChanged "today")))
        -> In d (grid (step s (DateChanged "week")))).
Proof.
  intros s d. destruct (documents s) as [o|docs] eqn:E.
  - rewrite !(grid_DateChanged_object s _ o E). tauto.
  - rewrite !(grid_DateChanged s _ docs E), !filter_In.
    unfold keeps, dateMatches, Date_geb, toDateString, DateString_eqb. simpl.
    split.
    + intros [H1 H2]. split; [exact H1|].
      apply andb_true_iff in H2. destruct H2 as [H2 H3].
      apply andb_true_iff. split; [exact H2|].
      destruct (upload_date d) as [t|]; [|discriminate].
      apply Z.leb_le in H3. apply Z.leb_le. lia.
    + intros Htz [H1 H2]. split; [exact H1|].
      apply andb_true_iff in H2. destruct H2 as [H2 H3].
      apply andb_true_iff. split; [exact H2|].
      destruct (upload_date d) as [t|]; [|discriminate].
      apply Z.eqb_eq in H3. unfold localDay in H3.
      rewrite (Htz t eq_refl) in H3.
      apply same_day_within_a_day in H3. unfold msPerDay in H3.
      apply Z.leb_le. lia.
Qed.

Lemma date_windows_nested_witness :
  (forall t, upload_date report = Some t ->
             timeZone dashboard t = timeZone dashboard (now dashboard))
  /\ In report (grid (step dashboard (DateChanged "today")))
  /\ In report (grid (step dashboard (DateChanged "week")))
  /\ In report (grid (step dashboard (DateChanged "month"))).
Proof.
  assert (Z0 : forall t, upload_date report = Some t ->
                         timeZone dashboard t = timeZone dashboard (now dashboard))
    by (intros t _; reflexivity).
  assert (T : In report (grid (step dashboard (DateChanged "today"))))
    by (left; reflexivity).
  destruct (date_windows_nested dashboard report) as [WM TW].
  split; [exact Z0|]. split; [exact T|].
  split; [exact (TW Z0 T) | exact (WM (TW Z0 T))].
Defined.

(** X6: with [today], [week] or [month] selected, a document whose upload
    date does not parse is never shown. *)
Theorem date_filter_drops_invalid_dates :
  forall (s : State) (docs : list Document) (v : string) (d : Document),
    documents s = JArray docs ->
    v = "today" \/ v = "week" \/ v = "month" ->
    In d (grid (step s (DateChanged v))) ->
    exists t, upload_date d = Some t.
Proof.
  intros s docs v d E Hv. rewrite (grid_DateChanged s v docs E), filter_In.
  intros [_ H]. unfold keeps in H. simpl in H.
  apply andb_true_iff in H. destruct H as [_ H].
  destruct (upload_date d) as [t|] eqn:U; [exists t; reflexivity|].
  exfalso.
  destruct Hv as [-> | [-> | ->]];
    unfold dateMatches in H; rewrite U in H; simpl in H; discriminate.
Qed.

Lemma date_filter_drops_invalid_dates_witness :
  documents (set_documents (JArray [report; undated]) dashboard)
  = JArray [report; undated]
  /\ ("week" = "today" \/ "week" = "week" \/ "week" = "month")
  /\ In report (grid (step (set_documents (JArray [report; undated]) dashboard)
                        (DateChanged "week")))
  /\ exists t, upload_date report = Some t.
Proof.
  assert (E : documents (set_documents (JArray [report; undated]) dashboard)
              = JArray [report; undated]) by reflexivity.
  assert (V : "week" = "today" \/ "week" = "week" \/ "week" = "month")
    by (right; left; reflexivity).
  assert (I : In report (grid (step (set_documents (JArray [report; undated]) dashboard)
                                 (DateChanged "week"))))
    by (left; reflexivity).
  split; [exact E|]. split; [exact V|]. split; [exact I|].
  exact (date_filter_drops_invalid_dates _ _ _ _ E V I).
Defined.

(** * Further properties: a search field of white space *)

Lemma trimStart_blank s : blank s = true -> Js.trimStart s = "".
Proof.
  induction s as [|c s IH]; simpl; [reflexivity|].
  intro H. apply andb_true_iff in H. destruct H as [H1 H2].
  rewrite H1. apply IH. exact H2.
Qed.

Lemma trim_blank s : blank s = true -> Js.trim s = "".
Proof. intro H. unfold Js.trim. rewrite trimStart_blank by exact H. reflexivity. Qed.

(** X7: a search field that holds white space only counts as empty: when the
    debounce timer runs, the grid goes back to the loaded collection and no
    request is sent. *)
Theorem blank_query_reverts_view :
  forall (s : State) (docs : list Document),
    blank (searchInput s) = true ->
    documents s = JArray docs ->
    searchCallback s = set_grid docs s.
Proof.
  intros s docs B E. unfold searchCallback.
  rewrite trim_blank by exact B. simpl. rewrite E. reflexivity.
Qed.

Lemma blank_query_reverts_view_witness :
  blank "   " = true
  /\ documents (set_grid [contract] (set_searchInput "   " dashboard))
     = JArray [report; contract; memo]
  /\ grid (searchCallback (set_grid [contract] (set_searchInput "   " dashboard)))
     = [report; contract; memo].
Proof.
  assert (B : blank (searchInput (set_grid [contract] (set_searchInput "   " dashboard)))
              = true) by reflexivity.
  assert (E : documents (set_grid [contract] (set_searchInput "   " dashboard))
              = JArray [report; contract; memo]) by reflexivity.
  split; [exact B|]. split; [exact E|].
  rewrite (blank_query_reverts_view _ _ B E). reflexivity.
Defined.

(** * Further properties: failures other than 401 *)

(** X8: when a list reload, a search or a document detail request fails
    without a 401 (the transport fails, the status is another error, or the
    body of an ok response does not parse), the user gets the one alert of
    that operation and nothing else changes: the session, the collection,
    the grid and the modal keep what they had. *)
Theorem quiet_failures_only_alert :
  forall (s : State) (fr : FetchResult),
    failsQuietly fr = true ->
    loadDocuments_resume fr s
    = alert "Failed to load documents. Please refresh the page." s
    /\ performSemanticSearch_resume fr s
       = alert "Search failed. Please try again." s
    /\ showDocumentDetail_resume fr s
       = alert "Failed to load document details. Please try again." s.
Proof.
  intros s [e|[o st [e|j]]] H; simpl in H.
  - repeat split.
  - destruct o; simpl in H.
    + repeat split.
    + unfold loadDocuments_resume, performSemanticSearch_resume,
        showDocumentDetail_resume, apiCall_settle. simpl.
      destruct (st =? 401)%N; [discriminate|]. repeat split.
  - destruct o; simpl in H; [discriminate|].
    unfold loadDocuments_resume, performSemanticSearch_resume,
      showDocumentDetail_resume, apiCall_settle. simpl.
    destruct (st =? 401)%N; [discriminate|]. repeat split.
Qed.

Lemma quiet_failures_only_alert_witness :
  failsQuietly (Responded {| ok := false; status := 500;
                             json := inr (JObject (Some (JsString "Internal Server Error"))) |})
  = true
  /\ loadDocuments_resume
       (Responded {| ok := false; status := 500;
                     json := inr (JObject (Some (JsString "Internal Server Error"))) |})
       dashboard
     = alert "Failed to load documents. Please refresh the page." dashboard.
Proof.
  assert (H : failsQuietly
                (Responded {| ok := false; status := 500;
                              json := inr (JObject (Some (JsString "Internal Server Error"))) |})
              = true) by reflexivity.
  split; [exact H|].
  exact (proj1 (quiet_failures_only_alert dashboard _ H)).
Defined.

(** * Further properties: requests after logout *)

(** X9: after [logout()] a download or an upload still sends an
    [Authorization] header, with the word null in place of the token, while
    a request made through [apiCall] sends none. *)
Theorem requests_after_logout :
  forall (s : State) (docId : string) (file : File) (rest : list File),
    requestsOf (log (downloadDocument docId (logout s)))
    = (requestsOf (log s)
       ++ [ {| endpoint := DownloadEndpoint docId; method := GET;
               contentType := None; authorization := Some "Bearer null";
               formFile := None |} ])%list
    /\ requestsOf (log (uploadSingleFile file (KUpload file rest) (logout s)))
       = (requestsOf (log s)
          ++ [ {| endpoint := DocumentsEndpoint; method := POST;
                  contentType := None; authorization := Some "Bearer null";
                  formFile := Some file |} ])%list
    /\ requestsOf (log (showDocumentDetail docId (logout s)))
       = (requestsOf (log s)
          ++ [ {| endpoint := DocumentEndpoint docId; method := GET;
                  contentType := Some "application/json";
                  authorization := None; formFile := None |} ])%list.
Proof.
  intros s docId file rest. unfold requestsOf.
  repeat split; simpl; rewrite flat_map_app; reflexivity.
Qed.

(** * Further properties: batches that overlap *)

Lemma uploadLoop_starts_upload files : forall s,
  existsb allowed files = true ->
  List.length (filter isUpload (inflight (uploadLoop files s)))
  = S (List.length (filter isUpload (inflight s))).
Proof.
  induction files as [|file rest IH]; intros s H; simpl in H; [discriminate|].
  simpl uploadLoop. destruct (allowed file); simpl negb; cbv iota.
  - simpl. rewrite filter_app, length_app. simpl. lia.
  - simpl in H. rewrite (IH (alert (unsupportedMessage file) s) H). reflexivity.
Qed.

(** X18: uploads are sequential within a batch only.  A batch with at least
    one supported file sends its first upload at once, whatever is already
    in flight: chosen while an earlier batch still waits for an answer, it
    puts a second upload in flight beside the first. *)
Theorem new_batch_uploads_at_once :
  forall (files : list File) (s : State),
    existsb allowed files = true ->
    List.length (filter isUpload (inflight (handleFileUpload files s)))
    = S (List.length (filter isUpload (inflight s))).
Proof.
  intros files s H. destruct files as [|file rest]; [discriminate|].
  apply (uploadLoop_starts_upload (file :: rest) s H).
Qed.

Lemma new_batch_uploads_at_once_witness :
  existsb allowed [file3] = true
  /\ List.length
       (filter isUpload
          (inflight (run [FilesDropped [file1]; FilesDropped [file3]] dashboard)))
     = 2.
Proof.
  assert (H : existsb allowed [file3] = true) by reflexivity.
  split; [exact H|].
  exact (new_batch_uploads_at_once [file3] (step dashboard (FilesDropped [file1])) H).
Defined.

(** * Further properties: login *)

Lemma awaiting_fresh k : forall l n,
  Forall (fun p => fst p < n) l ->
  Auth.awaiting n (l ++ [(n, k)]) = Some k.
Proof.
  induction l as [|[i k'] l IH]; intros n H; simpl.
  - rewrite Nat.eqb_refl. reflexivity.
  - inversion H as [|? ? Hi Hl]; subst. simpl in Hi.
    destruct (Nat.eqb_spec i n); [lia | apply IH; assumption].
Qed.

Lemma drop_fresh (k : Auth.AuthCont) : forall l n,
  Forall (fun p => fst p < n) l ->
  filter (fun p : nat * Auth.AuthCont => negb (Nat.eqb (fst p) n)) (l ++ [(n, k)]) = l.
Proof.
  induction l as [|[i k'] l IH]; intros n H; simpl.
  - rewrite Nat.eqb_refl. reflexivity.
  - inversion H as [|? ? Hi Hl]; subst. simpl in Hi.
    destruct (Nat.eqb_spec i n); [lia|]. simpl. f_equal.
    apply IH; assumption.
Qed.

Lemma Forall_older (l : list (nat * Auth.AuthCont)) n m :
  n <= m -> Forall (fun p => fst p < n) l -> Forall (fun p => fst p < m) l.
Proof.
  intros Hnm H. eapply Forall_impl; [|exact H]. simpl. intros p Hp. lia.
Qed.

(** The client once the login form, filled in, has been submitted. *)
Lemma login_submitted c username password :
  username <> "" -> password <> "" ->
  Auth.run [Auth.LoginFilled username password; Auth.LoginSubmitted] c
  = Auth.request (Auth.TokenRequest username password) Auth.KToken
      (Auth.set_loginButton "Logging in..." true
         (Auth.set_login username password c)).
Proof.
  intros Hu Hp. apply truthy_spec in Hu. apply truthy_spec in Hp.
  unfold Auth.run. simpl. unfold Auth.loginSubmit. simpl.
  rewrite Hu, Hp. reflexivity.
Qed.

Lemma token_settled c username password r :
  ClientWellFormed c ->
  Auth.step
    (Auth.request (Auth.TokenRequest username password) Auth.KToken
       (Auth.set_loginButton "Logging in..." true
          (Auth.set_login username password c)))
    (Auth.TokenSettled (nextRequest (Auth.app c)) r)
  = Auth.login_resume r
      (Auth.mkClient (set_nextRequest (S (nextRequest (Auth.app c))) (Auth.app c))
         (Auth.forms (Auth.set_loginButton "Logging in..." true
                        (Auth.set_login username password c)))
         (Auth.waiting c)
         (Auth.sent c ++ [(nextRequest (Auth.app c),
                           Auth.TokenRequest username password)])).
Proof.
  intro WF. unfold Auth.step, Auth.request. simpl.
  rewrite (awaiting_fresh Auth.KToken _ _ WF).
  unfold Auth.drop. simpl. rewrite (drop_fresh Auth.KToken _ _ WF). reflexivity.
Qed.

Lemma profile_settled_in_login c r k :
  ClientWellFormed c ->
  Auth.step (Auth.loadUserInfo k c) (Auth.ProfileSettled (nextRequest (Auth.app c)) r)
  = match k with
    | Auth.KLoginProfile =>
        Auth.login_profile_resume r
          (Auth.mkClient (set_nextRequest (S (nextRequest (Auth.app c))) (Auth.app c))
             (Auth.forms c) (Auth.waiting c)
             (Auth.sent c ++ [(nextRequest (Auth.app c),
                               Auth.ProfileRequest (Auth.bearer (Auth.app c)))]))
    | Auth.KProfile =>
        Auth.lift (Auth.loadUserInfo_resume r)
          (Auth.mkClient (set_nextRequest (S (nextRequest (Auth.app c))) (Auth.app c))
             (Auth.forms c) (Auth.waiting c)
             (Auth.sent c ++ [(nextRequest (Auth.app c),
                               Auth.ProfileRequest (Auth.bearer (Auth.app c)))]))
    | _ => Auth.loadUserInfo k c
    end.
Proof.
  intro WF. unfold Auth.step, Auth.loadUserInfo, Auth.request. simpl.
  rewrite (awaiting_fresh k _ _ WF).
  unfold Auth.drop. simpl. rewrite (drop_fresh k _ _ WF).
  destruct k; reflexivity.
Qed.

(** X10: a login that the backend grants.  With both fields filled in, the
    token of the answer is stored in memory and in local storage, the
    profile is fetched with it and becomes the current user, and the
    dashboard opens with a reload of the list and a second profile fetch,
    all three under that token. *)
Theorem login_granted :
  forall (c : Auth.Client) (username password token : string) (profile : UserProfile),
    ClientWellFormed c ->
    username <> "" -> password <> "" -> token <> "" ->
    let n := nextRequest (Auth.app c) in
    let c' := Auth.run [ Auth.LoginFilled username password;
                         Auth.LoginSubmitted;
                         Auth.TokenSettled n (Auth.TokenGranted (inr token));
                         Auth.ProfileSettled (S n) (Auth.ProfileOk (inr profile)) ] c in
    accessToken (Auth.app c') = Some token
    /\ localStorage (Auth.app c') = Some token
    /\ currentUser (Auth.app c') = Some profile
    /\ page (Auth.app c') = DashboardPage
    /\ Auth.sent c'
       = (Auth.sent c
          ++ [ (n, Auth.TokenRequest username password);
               (S n, Auth.ProfileRequest (Some ("Bearer " ++ token)%string));
               (S (S (S n)), Auth.ProfileRequest (Some ("Bearer " ++ token)%string)) ])%list
    /\ log (Auth.app c')
       = (log (Auth.app c)
          ++ [ Sent (S (S n))
                 {| endpoint := DocumentsEndpoint; method := GET;
                    contentType := Some "application/json";
                    authorization := Some ("Bearer " ++ token)%string;
                    formFile := None |} ])%list.
Proof.
  intros c username password token profile WF Hu Hp Ht. cbv zeta.
  change (Auth.run [Auth.LoginFilled username password; Auth.LoginSubmitted;
                    Auth.TokenSettled (nextRequest (Auth.app c)) (Auth.TokenGranted (inr token));
                    Auth.ProfileSettled (S (nextRequest (Auth.app c))) (Auth.ProfileOk (inr profile))] c)
    with (Auth.step
            (Auth.step
               (Auth.run [Auth.LoginFilled username password; Auth.LoginSubmitted] c)
               (Auth.TokenSettled (nextRequest (Auth.app c)) (Auth.TokenGranted (inr token))))
            (Auth.ProfileSettled (S (nextRequest (Auth.app c))) (Auth.ProfileOk (inr profile)))).
  rewrite login_submitted by assumption.
  rewrite token_settled by exact WF.
  unfold Auth.login_resume.
  match goal with
  | |- context [Auth.step (Auth.loadUserInfo Auth.KLoginProfile ?x) _] =>
      pose proof (profile_settled_in_login x (Auth.ProfileOk (inr profile))
                    Auth.KLoginProfile) as P
  end.
  simpl nextRequest in P. rewrite P.
  - apply truthy_spec in Ht.
    unfold Auth.login_profile_resume, Auth.login_end, Auth.login_finally,
      Auth.showDashboard, Auth.loadUserInfo, Auth.request, Auth.lift,
      Auth.bearer. simpl. rewrite Ht. simpl.
    rewrite <- !app_assoc. simpl. repeat split.
  - unfold ClientWellFormed in *. simpl.
    apply (Forall_older _ _ _ (Nat.le_succ_diag_r _) WF).
Qed.

Lemma login_granted_witness :
  ClientWellFormed visitor
  /\ "admin" <> "" /\ "admin123" <> "" /\ "tok123" <> ""
  /\ accessToken
       (Auth.app (Auth.run [ Auth.LoginFilled "admin" "admin123";
                             Auth.LoginSubmitted;
                             Auth.TokenSettled 1 (Auth.TokenGranted (inr "tok123"));
                             Auth.ProfileSettled 2 (Auth.ProfileOk (inr admin)) ]
                    visitor))
     = Some "tok123"
  /\ currentUser
       (Auth.app (Auth.run [ Auth.LoginFilled "admin" "admin123";
                             Auth.LoginSubmitted;
                             Auth.TokenSettled 1 (Auth.TokenGranted (inr "tok123"));
                             Auth.ProfileSettled 2 (Auth.ProfileOk (inr admin)) ]
                    visitor))
     = Some admin.
Proof.
  assert (WF : ClientWellFormed visitor) by (repeat constructor).
  assert (Hu : "admin" <> "") by discriminate.
  assert (Hp : "admin123" <> "") by discriminate.
  assert (Ht : "tok123" <> "") by discriminate.
  split; [exact WF|]. split; [exact Hu|]. split; [exact Hp|]. split; [exact Ht|].
  destruct (login_granted visitor "admin" "admin123" "tok123" admin WF Hu Hp Ht)
    as [H1 [_ [H3 _]]].
  split; [exact H1 | exact H3].
Defined.

(** X11: a login that is not granted.  Whether [/token] refuses, cannot be
    reached or answers something that does not parse, the session and the
    page stay as they were and the user gets one alert; a refusal that
    carries a reason shows that reason word for word.  No further request is
    made. *)
Theorem login_denied :
  forall (c : Auth.Client) (username password : string) (r : Auth.TokenReply),
    ClientWellFormed c ->
    username <> "" -> password <> "" ->
    denied r = true ->
    let n := nextRequest (Auth.app c) in
    let c' := Auth.run [ Auth.LoginFilled username password;
                         Auth.LoginSubmitted;
                         Auth.TokenSettled n r ] c in
    accessToken (Auth.app c') = accessToken (Auth.app c)
    /\ localStorage (Auth.app c') = localStorage (Auth.app c)
    /\ currentUser (Auth.app c') = currentUser (Auth.app c)
    /\ page (Auth.app c') = page (Auth.app c)
    /\ Auth.sent c' = (Auth.sent c ++ [(n, Auth.TokenRequest username password)])%list
    /\ Auth.waiting c' = Auth.waiting c
    /\ exists msg,
         log (Auth.app c') = (log (Auth.app c) ++ [Alert msg])%list
         /\ forall st reason,
              r = Auth.TokenRefused st (inr (Some (JsString reason))) -> reason <> "" ->
              msg = reason.
Proof.
  intros c username password r WF Hu Hp Hd. cbv zeta.
  change (Auth.run [Auth.LoginFilled username password; Auth.LoginSubmitted;
                    Auth.TokenSettled (nextRequest (Auth.app c)) r] c)
    with (Auth.step
            (Auth.run [Auth.LoginFilled username password; Auth.LoginSubmitted] c)
            (Auth.TokenSettled (nextRequest (Auth.app c)) r)).
  rewrite login_submitted by assumption.
  rewrite token_settled by exact WF.
  destruct r as [e|[e|token]|st [e|detail]]; try discriminate; simpl;
    repeat (split; [reflexivity|]);
    eexists; (split; [reflexivity|]); intros st' reason E Hr; try discriminate.
  injection E as _ ->. apply truthy_spec in Hr. simpl. rewrite Hr. reflexivity.
Qed.

Lemma login_denied_witness :
  ClientWellFormed visitor
  /\ "admin" <> "" /\ "wrong" <> ""
  /\ denied (Auth.TokenRefused 401 (inr (Some (JsString "Incorrect username or password")))) = true
  /\ alertsOf
       (log (Auth.app
               (Auth.run [ Auth.LoginFilled "admin" "wrong";
                           Auth.LoginSubmitted;
                           Auth.TokenSettled 1
                             (Auth.TokenRefused 401
                                (inr (Some (JsString "Incorrect username or password")))) ]
                  visitor)))
     = ["Incorrect username or password"].
Proof.
  assert (WF : ClientWellFormed visitor) by (repeat constructor).
  assert (Hu : "admin" <> "") by discriminate.
  assert (Hp : "wrong" <> "") by discriminate.
  assert (Hd : denied (Auth.TokenRefused 401 (inr (Some (JsString "Incorrect username or password")))) = true)
    by reflexivity.
  split; [exact WF|]. split; [exact Hu|]. split; [exact Hp|]. split; [exact Hd|].
  destruct (login_denied visitor "admin" "wrong" _ WF Hu Hp Hd)
    as [_ [_ [_ [_ [_ [_ [msg [L M]]]]]]]].
  change (nextRequest (Auth.app visitor)) with 1 in L. rewrite L. rewrite (M 401%N "Incorrect username or password" eq_refl);
    [reflexivity | discriminate].
Defined.

(** X13: a login whose profile fetch is answered 401.  [apiCall] logs the
    user out, [loadUserInfo] swallows the error, and the login handler goes
    on to open the dashboard: it is shown without a token in memory or in
    storage, the reload of the list leaves without an [Authorization]
    header, and no alert is raised. *)
Theorem login_opens_dashboard_after_profile_401 :
  forall (c : Auth.Client) (username password token : string)
         (body : HostError + option JsValue),
    ClientWellFormed c ->
    username <> "" -> password <> "" ->
    let n := nextRequest (Auth.app c) in
    let c' := Auth.run [ Auth.LoginFilled username password;
                         Auth.LoginSubmitted;
                         Auth.TokenSettled n (Auth.TokenGranted (inr token));
                         Auth.ProfileSettled (S n) (Auth.ProfileRefused 401 body) ] c in
    page (Auth.app c') = DashboardPage
    /\ accessToken (Auth.app c') = None
    /\ localStorage (Auth.app c') = None
    /\ currentUser (Auth.app c') = None
    /\ log (Auth.app c')
       = (log (Auth.app c)
          ++ [ Sent (S (S n))
                 {| endpoint := DocumentsEndpoint; method := GET;
                    contentType := Some "application/json";
                    authorization := None; formFile := None |} ])%list.
Proof.
  intros c username password token body WF Hu Hp. cbv zeta.
  change (Auth.run [Auth.LoginFilled username password; Auth.LoginSubmitted;
                    Auth.TokenSettled (nextRequest (Auth.app c)) (Auth.TokenGranted (inr token));
                    Auth.ProfileSettled (S (nextRequest (Auth.app c))) (Auth.ProfileRefused 401 body)] c)
    with (Auth.step
            (Auth.step
               (Auth.run [Auth.LoginFilled username password; Auth.LoginSubmitted] c)
               (Auth.TokenSettled (nextRequest (Auth.app c)) (Auth.TokenGranted (inr token))))
            (Auth.ProfileSettled (S (nextRequest (Auth.app c))) (Auth.ProfileRefused 401 body))).
  rewrite login_submitted by assumption.
  rewrite token_settled by exact WF.
  unfold Auth.login_resume.
  match goal with
  | |- context [Auth.step (Auth.loadUserInfo Auth.KLoginProfile ?x) _] =>
      pose proof (profile_settled_in_login x (Auth.ProfileRefused 401 body)
                    Auth.KLoginProfile) as P
  end.
  simpl nextRequest in P. rewrite P.
  - repeat split.
  - unfold ClientWellFormed in *. simpl.
    apply (Forall_older _ _ _ (Nat.le_succ_diag_r _) WF).
Qed.

Lemma login_opens_dashboard_after_profile_401_witness :
  ClientWellFormed visitor
  /\ "admin" <> "" /\ "admin123" <> ""
  /\ page (Auth.app
             (Auth.run [ Auth.LoginFilled "admin" "admin123";
                         Auth.LoginSubmitted;
                         Auth.TokenSettled 1 (Auth.TokenGranted (inr "tok123"));
                         Auth.ProfileSettled 2
                           (Auth.ProfileRefused 401 (inr (Some (JsString "Could not validate credentials")))) ]
                visitor))
     = DashboardPage
  /\ accessToken
       (Auth.app
          (Auth.run [ Auth.LoginFilled "admin" "admin123";
                      Auth.LoginSubmitted;
                      Auth.TokenSettled 1 (Auth.TokenGranted (inr "tok123"));
                      Auth.ProfileSettled 2
                        (Auth.ProfileRefused 401 (inr (Some (JsString "Could not validate credentials")))) ]
             visitor))
     = None.
Proof.
  assert (WF : ClientWellFormed visitor) by (repeat constructor).
  assert (Hu : "admin" <> "") by discriminate.
  assert (Hp : "admin123" <> "") by discriminate.
  split; [exact WF|]. split; [exact Hu|]. split; [exact Hp|].
  destruct (login_opens_dashboard_after_profile_401 visitor "admin" "admin123"
              "tok123" (inr (Some (JsString "Could not validate credentials"))) WF Hu Hp)
    as [H1 [H2 _]].
  split; [exact H1 | exact H2].
Defined.

(** * Further properties: the submit buttons *)

Lemma login_end_id c : Auth.login_end c = c.
Proof. reflexivity. Qed.

Lemma signup_end_id c : Auth.signup_end c = c.
Proof. reflexivity. Qed.

(** The buttons as the two submit handlers leave them. *)
Lemma step_keeps_buttons c e :
  (Auth.loginButtonDisabled (Auth.forms c) = true
   /\ Auth.loginButtonText (Auth.forms c) = "Logging in..."
   -> Auth.loginButtonDisabled (Auth.forms (Auth.step c e)) = true
      /\ Auth.loginButtonText (Auth.forms (Auth.step c e)) = "Logging in...")
  /\ (Auth.signupButtonDisabled (Auth.forms c) = true
      /\ Auth.signupButtonText (Auth.forms c) = "Creating Account..."
      -> Auth.signupButtonDisabled (Auth.forms (Auth.step c e)) = true
         /\ Auth.signupButtonText (Auth.forms (Auth.step c e)) = "Creating Account...").
Proof.
  destruct e; simpl.
  - tauto.
  - unfold Auth.init. destruct (accessToken (Auth.app c)) as [t|];
      [destruct (Js.truthy t)|]; simpl; tauto.
  - tauto.
  - unfold Auth.loginSubmit.
    destruct (negb (Js.truthy (Auth.loginUsername (Auth.forms c)))
              || negb (Js.truthy (Auth.loginPassword (Auth.forms c)))); simpl; tauto.
  - tauto.
  - unfold Auth.signupSubmit.
    destruct (negb (Auth.signupPassword (Auth.signup (Auth.forms c))
                    =? Auth.confirmPassword (Auth.signup (Auth.forms c)))); simpl;
      [tauto|].
    destruct (negb (Js.truthy (Auth.signupUsername (Auth.signup (Auth.forms c))))
              || negb (Js.truthy (Auth.signupEmail (Auth.signup (Auth.forms c))))
              || negb (Js.truthy (Auth.signupRole (Auth.signup (Auth.forms c))))
              || negb (Js.truthy (Auth.signupPassword (Auth.signup (Auth.forms c)))));
      simpl; tauto.
  - tauto.
  - tauto.
  - destruct (Auth.awaiting id (Auth.waiting c)) as [[]|]; simpl; tauto.
  - destruct (Auth.awaiting id (Auth.waiting c)) as [[]|]; simpl; try tauto.
    destruct r as [e|[e|token]|st [e|detail]]; simpl; tauto.
  - destruct (Auth.awaiting id (Auth.waiting c)) as [[]|]; simpl; tauto.
  - destruct (Auth.awaiting id (Auth.waiting c)) as [[]|]; simpl; try tauto.
    unfold Auth.signup_resume.
    destruct (apiCall_settle fr (Auth.app (Auth.drop id c))) as [s [response|x]].
    + destruct (ok response); simpl; tauto.
    + simpl. tauto.
Qed.

Lemma run_keeps_login_button events : forall c,
  Auth.loginButtonDisabled (Auth.forms c) = true
  /\ Auth.loginButtonText (Auth.forms c) = "Logging in..." ->
  Auth.loginButtonDisabled (Auth.forms (Auth.run events c)) = true
  /\ Auth.loginButtonText (Auth.forms (Auth.run events c)) = "Logging in...".
Proof.
  induction events as [|e events IH]; intros c H; simpl; [exact H|].
  apply IH. apply (proj1 (step_keeps_buttons c e)). exact H.
Qed.

Lemma run_keeps_signup_button events : forall c,
  Auth.signupButtonDisabled (Auth.forms c) = true
  /\ Auth.signupButtonText (Auth.forms c) = "Creating Account..." ->
  Auth.signupButtonDisabled (Auth.forms (Auth.run events c)) = true
  /\ Auth.signupButtonText (Auth.forms (Auth.run events c)) = "Creating Account...".
Proof.
  induction events as [|e events IH]; intros c H; simpl; [exact H|].
  apply IH. apply (proj2 (step_keeps_buttons c e)). exact H.
Qed.

(** X12: the login button is never given back.  Once the form has been
    submitted with both fields filled in, the button stays disabled and
    keeps the label [Logging in...] through every later event, whatever the
    backend answers: the [finally] block that should restore it reads
    [originalText] outside the block that declares it and stops on a
    ReferenceError. *)
Theorem login_button_stays_disabled :
  forall (c : Auth.Client) (events : list Auth.AuthEvent),
    Auth.loginUsername (Auth.forms c) <> "" ->
    Auth.loginPassword (Auth.forms c) <> "" ->
    let c' := Auth.run (Auth.LoginSubmitted :: events) c in
    Auth.loginButtonDisabled (Auth.forms c') = true
    /\ Auth.loginButtonText (Auth.forms c') = "Logging in...".
Proof.
  intros c events Hu Hp. cbv zeta.
  change (Auth.run (Auth.LoginSubmitted :: events) c)
    with (Auth.run events (Auth.loginSubmit c)).
  apply run_keeps_login_button.
  apply truthy_spec in Hu. apply truthy_spec in Hp.
  unfold Auth.loginSubmit. rewrite Hu, Hp. simpl. split; reflexivity.
Qed.

Lemma login_button_stays_disabled_witness :
  Auth.loginUsername (Auth.forms (Auth.set_login "admin" "wrong" visitor)) <> ""
  /\ Auth.loginPassword (Auth.forms (Auth.set_login "admin" "wrong" visitor)) <> ""
  /\ Auth.loginButtonDisabled
       (Auth.forms
          (Auth.run [ Auth.LoginSubmitted;
                      Auth.TokenSettled 1 (Auth.TokenRefused 401 (inr None));
                      Auth.LoginFilled "admin" "admin123" ]
             (Auth.set_login "admin" "wrong" visitor)))
     = true.
Proof.
  assert (Hu : Auth.loginUsername (Auth.forms (Auth.set_login "admin" "wrong" visitor)) <> "")
    by discriminate.
  assert (Hp : Auth.loginPassword (Auth.forms (Auth.set_login "admin" "wrong" visitor)) <> "")
    by discriminate.
  split; [exact Hu|]. split; [exact Hp|].
  exact (proj1 (login_button_stays_disabled
                  (Auth.set_login "admin" "wrong" visitor)
                  [ Auth.TokenSettled 1 (Auth.TokenRefused 401 (inr None));
                    Auth.LoginFilled "admin" "admin123" ] Hu Hp)).
Defined.

(** * Further properties: signup *)

Lemma signupValid_dec f :
  signupValid f
  <-> negb (Auth.signupPassword f =? Auth.confirmPassword f) = false
      /\ negb (Js.truthy (Auth.signupUsername f))
         || negb (Js.truthy (Auth.signupEmail f))
         || negb (Js.truthy (Auth.signupRole f))
         || negb (Js.truthy (Auth.signupPassword f)) = false.
Proof.
  unfold signupValid.
  rewrite negb_false_iff, String.eqb_eq, !orb_false_iff, !negb_false_iff,
    !truthy_spec.
  tauto.
Qed.

(** X14: the signup form sends a request exactly when the two passwords
    agree and username, email, role and password are all filled in.  The
    request carries the username, the password and the role; the email,
    though required, is not part of it.  Otherwise nothing is sent and one
    alert says which check failed, the password comparison coming first. *)
Theorem signup_sends_iff_valid :
  forall c : Auth.Client,
    let f := Auth.signup (Auth.forms c) in
    let c' := Auth.step c Auth.SignupSubmitted in
    (signupValid f ->
       Auth.sent c'
       = (Auth.sent c
          ++ [ (nextRequest (Auth.app c),
                Auth.SignupRequest (Auth.bearer (Auth.app c))
                  (Auth.signupUsername f) (Auth.signupPassword f)
                  (Auth.signupRole f)) ])%list
       /\ log (Auth.app c') = log (Auth.app c))
    /\ (~ signupValid f ->
        Auth.sent c' = Auth.sent c
        /\ (Auth.signupPassword f <> Auth.confirmPassword f ->
            log (Auth.app c') = (log (Auth.app c) ++ [Alert "Passwords do not match"])%list)
        /\ (Auth.signupPassword f = Auth.confirmPassword f ->
            log (Auth.app c') = (log (Auth.app c) ++ [Alert "Please fill in all fields"])%list)).
Proof.
  intro c. cbv zeta. simpl. unfold Auth.signupSubmit.
  rewrite signupValid_dec.
  destruct (String.eqb_spec (Auth.signupPassword (Auth.signup (Auth.forms c)))
              (Auth.confirmPassword (Auth.signup (Auth.forms c)))) as [E|N]; simpl.
  - destruct (negb (Js.truthy (Auth.signupUsername (Auth.signup (Auth.forms c))))
              || negb (Js.truthy (Auth.signupEmail (Auth.signup (Auth.forms c))))
              || negb (Js.truthy (Auth.signupRole (Auth.signup (Auth.forms c))))
              || negb (Js.truthy (Auth.signupPassword (Auth.signup (Auth.forms c)))));
      simpl.
    + split; [intros [_ H]; discriminate|].
      intros _. split; [reflexivity|]. split; [intro; contradiction | reflexivity].
    + split; [intros _; split; reflexivity|].
      intro H. exfalso. apply H. split; reflexivity.
  - split; [intros [H _]; discriminate|].
    intros _. split; [reflexivity|]. split; [reflexivity | intro; contradiction].
Qed.

Lemma signup_sends_iff_valid_witness :
  signupValid newcomer
  /\ Auth.sent (Auth.step (Auth.set_signup newcomer visitor) Auth.SignupSubmitted)
     = [ (0, Auth.HealthRequest);
         (1, Auth.SignupRequest None "carol" "s3cret" "Legal") ].
Proof.
  assert (V : signupValid newcomer) by (repeat split; discriminate).
  split; [exact V|].
  exact (proj1 (proj1 (signup_sends_iff_valid (Auth.set_signup newcomer visitor)) V)).
Defined.

Lemma signup_submitted c :
  signupValid (Auth.signup (Auth.forms c)) ->
  Auth.step c Auth.SignupSubmitted
  = Auth.request
      (Auth.SignupRequest (Auth.bearer (Auth.app c))
         (Auth.signupUsername (Auth.signup (Auth.forms c)))
         (Auth.signupPassword (Auth.signup (Auth.forms c)))
         (Auth.signupRole (Auth.signup (Auth.forms c)))) Auth.KSignup
      (Auth.set_signupButton "Creating Account..." true c).
Proof.
  intro V. apply signupValid_dec in V. destruct V as [V1 V2].
  simpl. unfold Auth.signupSubmit. rewrite V1, V2. reflexivity.
Qed.

Lemma signup_settled c r fr :
  ClientWellFormed c ->
  Auth.step (Auth.request r Auth.KSignup c)
    (Auth.SignupSettled (nextRequest (Auth.app c)) fr)
  = Auth.signup_resume fr
      (Auth.mkClient (set_nextRequest (S (nextRequest (Auth.app c))) (Auth.app c))
         (Auth.forms c) (Auth.waiting c)
         (Auth.sent c ++ [(nextRequest (Auth.app c), r)])).
Proof.
  intro WF. unfold Auth.step, Auth.request. simpl.
  rewrite (awaiting_fresh Auth.KSignup _ _ WF).
  unfold Auth.drop. simpl. rewrite (drop_fresh Auth.KSignup _ _ WF). reflexivity.
Qed.

(** X15: how a signup ends.  When the backend accepts, the user is told,
    the login page is shown and the form is reset to its defaults; when it
    refuses with a status other than 401 and a reason, the alert is that
    reason and the page and the fields stay.  Either way the submit button
    stays disabled under the label [Creating Account...]. *)
Theorem signup_outcomes :
  forall (c : Auth.Client) (st : N) (reason : string),
    ClientWellFormed c ->
    signupValid (Auth.signup (Auth.forms c)) ->
    st <> 401%N -> reason <> "" ->
    let n := nextRequest (Auth.app c) in
    (forall body,
       let c' := Auth.run [ Auth.SignupSubmitted;
                            Auth.SignupSettled n
                              (Responded {| ok := true; status := st; json := body |}) ] c in
       log (Auth.app c')
       = (log (Auth.app c) ++ [Alert "Account created successfully! Please login."])%list
       /\ page (Auth.app c') = LoginPage
       /\ Auth.signup (Auth.forms c') = Auth.signupDefaults (Auth.forms c)
       /\ Auth.signupButtonDisabled (Auth.forms c') = true
       /\ Auth.signupButtonText (Auth.forms c') = "Creating Account...")
    /\ (let c' := Auth.run [ Auth.SignupSubmitted;
                             Auth.SignupSettled n
                               (Responded {| ok := false; status := st;
                                             json := inr (JObject (Some (JsString reason))) |}) ] c in
        log (Auth.app c') = (log (Auth.app c) ++ [Alert reason])%list
        /\ page (Auth.app c') = page (Auth.app c)
        /\ Auth.signup (Auth.forms c') = Auth.signup (Auth.forms c)
        /\ Auth.signupButtonDisabled (Auth.forms c') = true
        /\ Auth.signupButtonText (Auth.forms c') = "Creating Account...").
Proof.
  intros c st reason WF V Hst Hr. cbv zeta.
  apply N.eqb_neq in Hst. apply truthy_spec in Hr.
  split.
  - intro body.
    change (Auth.run [Auth.SignupSubmitted;
                      Auth.SignupSettled (nextRequest (Auth.app c))
                        (Responded {| ok := true; status := st; json := body |})] c)
      with (Auth.step (Auth.step c Auth.SignupSubmitted)
              (Auth.SignupSettled (nextRequest (Auth.app c))
                 (Responded {| ok := true; status := st; json := body |}))).
    rewrite signup_submitted by exact V.
    rewrite (signup_settled (Auth.set_signupButton "Creating Account..." true c) _ _ WF).
    repeat split.
  - change (Auth.run [Auth.SignupSubmitted;
                      Auth.SignupSettled (nextRequest (Auth.app c))
                        (Responded {| ok := false; status := st;
                                      json := inr (JObject (Some (JsString reason))) |})] c)
      with (Auth.step (Auth.step c Auth.SignupSubmitted)
              (Auth.SignupSettled (nextRequest (Auth.app c))
                 (Responded {| ok := false; status := st;
                               json := inr (JObject (Some (JsString reason))) |}))).
    rewrite signup_submitted by exact V.
    rewrite (signup_settled (Auth.set_signupButton "Creating Account..." true c) _ _ WF).
    unfold Auth.signup_resume, apiCall_settle. simpl. rewrite Hst. simpl.
    rewrite Hr. simpl. rewrite Hr. repeat split.
Qed.

Lemma signup_outcomes_witness :
  ClientWellFormed (Auth.set_signup newcomer visitor)
  /\ signupValid (Auth.signup (Auth.forms (Auth.set_signup newcomer visitor)))
  /\ 400%N <> 401%N /\ "Username already registered" <> ""
  /\ alertsOf
       (log (Auth.app
               (Auth.run [ Auth.SignupSubmitted;
                           Auth.SignupSettled 1
                             (Responded {| ok := false; status := 400;
                                           json := inr (JObject (Some (JsString "Username already registered"))) |}) ]
                  (Auth.set_signup newcomer visitor))))
     = ["Username already registered"].
Proof.
  assert (WF : ClientWellFormed (Auth.set_signup newcomer visitor))
    by (repeat constructor).
  assert (V : signupValid (Auth.signup (Auth.forms (Auth.set_signup newcomer visitor))))
    by (repeat split; discriminate).
  assert (Hst : 400%N <> 401%N) by discriminate.
  assert (Hr : "Username already registered" <> "") by discriminate.
  split; [exact WF|]. split; [exact V|]. split; [exact Hst|]. split; [exact Hr|].
  destruct (signup_outcomes _ 400%N "Username already registered" WF V Hst Hr)
    as [_ [L _]].
  change (nextRequest (Auth.app (Auth.set_signup newcomer visitor))) with 1 in L.
  rewrite L. reflexivity.
Defined.

(** * Further properties: page load *)

(** X16: what the page does on load.  With a non-empty token in local
    storage the dashboard is shown at once, before any answer from the
    backend, and the list and the profile are requested under that token;
    with no token, or an empty one, the login page is shown and nothing but
    the health check is requested.  The health check is sent either way. *)
Theorem page_load_cases :
  forall c : Auth.Client,
    let n := nextRequest (Auth.app c) in
    let c' := Auth.run [Auth.PageLoaded] (Auth.boot c) in
    (forall t, localStorage (Auth.app c) = Some t -> t <> "" ->
       page (Auth.app c') = DashboardPage
       /\ accessToken (Auth.app c') = Some t
       /\ Auth.sent c'
          = (Auth.sent c
             ++ [ (n, Auth.HealthRequest);
                  (S (S n), Auth.ProfileRequest (Some ("Bearer " ++ t)%string)) ])%list
       /\ log (Auth.app c')
          = (log (Auth.app c)
             ++ [ Sent (S n)
                    {| endpoint := DocumentsEndpoint; method := GET;
                       contentType := Some "application/json";
                       authorization := Some ("Bearer " ++ t)%string;
                       formFile := None |} ])%list)
    /\ (localStorage (Auth.app c) = None \/ localStorage (Auth.app c) = Some "" ->
        page (Auth.app c') = LoginPage
        /\ Auth.sent c' = (Auth.sent c ++ [(n, Auth.HealthRequest)])%list
        /\ log (Auth.app c') = log (Auth.app c)).
Proof.
  intro c. cbv zeta. unfold Auth.run. simpl.
  unfold Auth.init, Auth.boot, Auth.checkBackendHealth, Auth.request, Auth.lift.
  simpl. split.
  - intros t E Ht. rewrite E. apply truthy_spec in Ht. rewrite Ht.
    unfold Auth.showDashboard, Auth.loadUserInfo, Auth.request, Auth.lift,
      Auth.bearer. simpl. rewrite Ht. rewrite <- app_assoc. repeat split.
  - intros [E|E]; rewrite E; simpl; repeat split.
Qed.

Lemma page_load_cases_witness :
  localStorage (Auth.app (served (Some "tok123"))) = Some "tok123"
  /\ "tok123" <> ""
  /\ page (Auth.app (Auth.run [Auth.PageLoaded] (Auth.boot (served (Some "tok123")))))
     = DashboardPage
  /\ page (Auth.app visitor) = LoginPage.
Proof.
  assert (E : localStorage (Auth.app (served (Some "tok123"))) = Some "tok123")
    by reflexivity.
  assert (Ht : "tok123" <> "") by discriminate.
  split; [exact E|]. split; [exact Ht|].
  split.
  - exact (proj1 (proj1 (page_load_cases (served (Some "tok123"))) "tok123" E Ht)).
  - exact (proj1 (proj2 (page_load_cases (served None)) (or_introl eq_refl))).
Defined.

(** * Further properties: the token in memory and the stored token *)

Lemma Synced_uploadLoop files s : Synced s -> Synced (uploadLoop files s).
Proof.
  unfold Synced. intro H.
  destruct (uploadLoop_session files s) as [H1 [_ [H2 _]]]. congruence.
Qed.

Lemma Synced_searchCallback s : Synced s -> Synced (searchCallback s).
Proof.
  intro H. unfold searchCallback.
  destruct (3 <=? String.length (Js.trim (searchInput s)))%nat; [exact H|].
  destruct (String.length (Js.trim (searchInput s)) =? 0)%nat; [|exact H].
  destruct (documents s); exact H.
Qed.

Lemma Synced_callbacks {A} (due : list A) : forall s,
  Synced s -> Synced (fold_left (fun st _ => searchCallback st) due s).
Proof.
  induction due as [|d due IH]; intros s H; simpl; [exact H|].
  apply IH, Synced_searchCallback, H.
Qed.

Lemma Synced_apiCall_settle fr s :
  Synced s -> Synced (fst (apiCall_settle fr s)).
Proof.
  intro H. destruct fr as [e|[[] st body]]; simpl; try exact H.
  destruct (st =? 401)%N; [reflexivity | exact H].
Qed.

Lemma Synced_resume k fr s : Synced s -> Synced (resume k fr s).
Proof.
  intro H. destruct k as [| | |docId|file rest]; simpl.
  - unfold loadDocuments_resume.
    destruct fr as [e|[[] st [e|[d|l]]]]; simpl;
      try destruct (st =? 401)%N; first [exact H | reflexivity].
  - unfold performSemanticSearch_resume.
    destruct fr as [e|[[] st [e|[d|l]]]]; simpl;
      try destruct (st =? 401)%N; first [exact H | reflexivity].
  - unfold showDocumentDetail_resume.
    destruct fr as [e|[[] st [e|[d|l]]]]; simpl;
      try destruct (st =? 401)%N; first [exact H | reflexivity].
  - unfold downloadDocument_resume.
    destruct fr as [e|[[] st body]]; exact H.
  - unfold handleFileUpload_resume.
    destruct (uploadSingleFile_settle fr); apply Synced_uploadLoop; exact H.
Qed.

Lemma step_Synced s e : Synced s -> Synced (step s e).
Proof.
  intro H. destruct e; simpl.
  - unfold onSearchInput, clearTimeout. simpl.
    destruct (searchTimeout s); exact H.
  - apply Synced_callbacks. exact H.
  - destruct (pending id (inflight s)); [|exact H].
    apply Synced_resume. exact H.
  - rewrite filterDocuments_eq. simpl. destruct (documents s); exact H.
  - rewrite filterDocuments_eq. simpl. destruct (documents s); exact H.
  - rewrite filterDocuments_eq. simpl. destruct (documents s); exact H.
  - destruct files; [exact H|].
    apply (Synced_uploadLoop (f :: files) (set_fileInput (f :: files) s)). exact H.
  - destruct files; [exact H|]. apply Synced_uploadLoop. exact H.
  - exact H.
  - exact H.
  - exact H.
  - reflexivity.
Qed.

Lemma Synced_loadUserInfo_resume r s :
  Synced s -> Synced (Auth.loadUserInfo_resume r s).
Proof.
  intro H. destruct r as [e|[e|u]|st body]; simpl; try exact H.
  destruct (st =? 401)%N; [reflexivity | exact H].
Qed.

Lemma client_step_Synced c e :
  Synced (Auth.app c) -> Synced (Auth.app (Auth.step c e)).
Proof.
  intro H. destruct e; simpl.
  - apply step_Synced. exact H.
  - unfold Auth.init. destruct (accessToken (Auth.app c)) as [t|];
      [destruct (Js.truthy t)|]; exact H.
  - exact H.
  - unfold Auth.loginSubmit.
    destruct (negb (Js.truthy (Auth.loginUsername (Auth.forms c)))
              || negb (Js.truthy (Auth.loginPassword (Auth.forms c)))); exact H.
  - exact H.
  - unfold Auth.signupSubmit.
    destruct (negb (Auth.signupPassword (Auth.signup (Auth.forms c))
                    =? Auth.confirmPassword (Auth.signup (Auth.forms c))));
      [exact H|].
    destruct (negb (Js.truthy (Auth.signupUsername (Auth.signup (Auth.forms c))))
              || negb (Js.truthy (Auth.signupEmail (Auth.signup (Auth.forms c))))
              || negb (Js.truthy (Auth.signupRole (Auth.signup (Auth.forms c))))
              || negb (Js.truthy (Auth.signupPassword (Auth.signup (Auth.forms c)))));
      exact H.
  - exact H.
  - exact H.
  - destruct (Auth.awaiting id (Auth.waiting c)) as [[]|]; exact H.
  - destruct (Auth.awaiting id (Auth.waiting c)) as [[]|]; try exact H.
    destruct r as [e|[e|token]|st [e|detail]]; first [exact H | reflexivity].
  - destruct (Auth.awaiting id (Auth.waiting c)) as [[]|]; try exact H.
    + apply (Synced_loadUserInfo_resume r (Auth.app c)). exact H.
    + apply (Synced_loadUserInfo_resume r (Auth.app c)). exact H.
  - destruct (Auth.awaiting id (Auth.waiting c)) as [[]|]; try exact H.
    unfold Auth.signup_resume.
    pose proof (Synced_apiCall_settle fr (Auth.app (Auth.drop id c)) H) as S.
    destruct (apiCall_settle fr (Auth.app (Auth.drop id c))) as [s [response|x]];
      simpl in S.
    + destruct (ok response); exact S.
    + exact S.
Qed.

Lemma client_run_Synced events : forall c,
  Synced (Auth.app c) -> Synced (Auth.app (Auth.run events c)).
Proof.
  induction events as [|e events IH]; intros c H; simpl; [exact H|].
  apply IH, client_step_Synced, H.
Qed.

(** X17: from the moment the script has run, the token in memory and the
    token in local storage are the same at every instant, through login,
    logout, session expiry and everything else the page does (local storage
    being written by this script only). *)
Theorem token_in_memory_is_stored_token :
  forall (c : Auth.Client) (events : list Auth.AuthEvent),
    accessToken (Auth.app (Auth.run events (Auth.boot c)))
    = localStorage (Auth.app (Auth.run events (Auth.boot c))).
Proof.
  intros c events. apply (client_run_Synced events (Auth.boot c)). reflexivity.
Qed.
